(** * nestjs-auth: token validation and context-scoped access checks

    A shallow embedding of [auth-validator.service.ts], [permission.guard.ts]
    and [role.guard.ts], and of their surroundings: [token-extractor.service.ts],
    [auth.guard.ts], [decorators.ts] and the [AuthMiddleware] of the examples.

    - JavaScript values that cross the wire (response bodies, the fields of a
      [User]) are kept as an untyped [JsValue]: TypeScript's annotations are
      erased at run time and the code reads the bodies as [any].
    - The module-level [tokenCache] (a JS [Map] keyed by the token string) is a
      [gmap string CacheEntry] inside the process state [World], next to
      [process.env], the wall clock read by [Date.now()] and the trace of
      outbound requests.
    - [async] functions are computations in a state-and-exception monad
      [Async]; [await firstValueFrom(httpService.post(..))] is the one
      operation that talks to the injected [HttpService], records the request
      and lets time pass.
    - Calls to [this.logger] only write diagnostics: the text is dropped.
      What is kept is the evaluation of their arguments where it can throw,
      the template literals that convert [user.sub] to a string. *)

From Stdlib Require Import ZArith Ascii String.
From stdpp Require Import base option list strings gmap.

Set Warnings "-register-all".
Local Open Scope Z_scope.
Local Open Scope string_scope.

(** ** JavaScript values *)

Inductive JsValue : Type :=
| JUndefined
| JNull
| JBool (b : bool)
| JNum (n : Z)
| JStr (s : string)
| JArr (items : list JsValue)
| JObj (fields : list (string * JsValue)).

(** [ToBoolean]: what [!v], [v || d] and [Boolean(v)] test.  Numbers are
    integers here, so the only falsy number is [0]. *)
Definition ToBoolean (v : JsValue) : bool :=
  match v with
  | JUndefined | JNull => false
  | JBool b => b
  | JNum n => negb (n =? 0)%Z
  | JStr s => negb (String.eqb s "")
  | JArr _ | JObj _ => true
  end.

Fixpoint assoc (k : string) (fields : list (string * JsValue)) : JsValue :=
  match fields with
  | [] => JUndefined
  | (k', v) :: rest => if String.eqb k k' then v else assoc k rest
  end.

(** Own data property [k] of a non-nullish value.  The keys read by this
    package ([active], [sub], [role], [permissions], [hasPermission],
    [hasRole]) exist on parsed JSON only as own properties of an object. *)
Definition own_property (v : JsValue) (k : string) : JsValue :=
  match v with
  | JObj fields => assoc k fields
  | _ => JUndefined
  end.

Definition nullish (v : JsValue) : bool :=
  match v with
  | JUndefined | JNull => true
  | _ => false
  end.

(** [v?.k] *)
Definition opt_chain (v : JsValue) (k : string) : JsValue :=
  if nullish v then JUndefined else own_property v k.

Fixpoint has_key (k : string) (fields : list (string * JsValue)) : bool :=
  match fields with
  | [] => false
  | (k', _) :: rest => String.eqb k k' || has_key k rest
  end.

(** Whether [String(v)], the conversion a template literal applies, returns.
    A parsed object holds no functions, so one with an own [toString] has no
    callable conversion left and the conversion throws a [TypeError]; any
    other object prints as ["[object Object]"].  An array joins the
    conversions of its elements. *)
Fixpoint stringifies (v : JsValue) : bool :=
  match v with
  | JObj fields => negb (has_key "toString" fields)
  | JArr items => forallb stringifies items
  | _ => true
  end.

(** ** JavaScript strings

    A [string] is read as a sequence of code units below 256 (Node decodes
    header values as latin1). *)

(** White space and line terminators removed by [String.prototype.trim],
    among the code units below 256: TAB, LF, VT, FF, CR, SP and NBSP. *)
Definition is_white_space (c : ascii) : bool :=
  let n := N_of_ascii c in
  ((9 <=? n) && (n <=? 13) || (n =? 32) || (n =? 160))%N.

Fixpoint trimStart (s : string) : string :=
  match s with
  | EmptyString => EmptyString
  | String c rest => if is_white_space c then trimStart rest else s
  end.

Fixpoint trimEnd (s : string) : string :=
  match s with
  | EmptyString => EmptyString
  | String c rest =>
      match trimEnd rest with
      | EmptyString => if is_white_space c then EmptyString else String c EmptyString
      | kept => String c kept
      end
  end.

Definition trim (s : string) : string := trimEnd (trimStart s).

(** [toLowerCase] on the letters [A]..[Z]; every other code unit is kept.
    No character outside ASCII lowers to a letter of ['development'], so the
    comparison in [isDevEnv] is decided by this part of the mapping. *)
Definition lower_ascii (c : ascii) : ascii :=
  let n := N_of_ascii c in
  if ((65 <=? n) && (n <=? 90))%N then ascii_of_N (n + 32) else c.

Fixpoint toLowerCase (s : string) : string :=
  match s with
  | EmptyString => EmptyString
  | String c rest => String (lower_ascii c) (toLowerCase rest)
  end.

(** [Array.prototype.join] *)
Fixpoint join (sep : string) (l : list string) : string :=
  match l with
  | [] => ""
  | [x] => x
  | x :: rest => x ++ sep ++ join sep rest
  end.

(** [a || d] for an optional string [a]: [undefined] and [''] are falsy. *)
Definition or_default (a : option string) (d : string) : string :=
  match a with
  | Some s => if String.eqb s "" then d else s
  | None => d
  end.

(** ** HTTP exchange and exceptions *)

Record AxiosResponse : Type := mkResponse {
  status : Z;
  data : JsValue
}.

Inductive ExceptionClass : Type :=
| UnauthorizedException
| ServiceUnavailableException
| ForbiddenException
| BadRequestException
| AxiosError
| OtherError.

#[global] Instance ExceptionClass_eq_dec : EqDecision ExceptionClass.
Proof. solve_decision. Defined.

(** A thrown value: its class (what [instanceof] sees), its message and
    [error.response] when that is an HTTP response ([None] stands for every
    error whose [error?.response?.status] reads [undefined]). *)
Record Thrown : Type := mkThrown {
  cls : ExceptionClass;
  message : string;
  response : option AxiosResponse
}.

(** [new C(msg)] for the Nest exceptions: they carry no HTTP response. *)
Definition new (c : ExceptionClass) (msg : string) : Thrown :=
  {| cls := c; message := msg; response := None |}.

Definition instanceof (e : Thrown) (c : ExceptionClass) : bool :=
  bool_decide (cls e = c).

(** [error?.response?.status] *)
Definition response_status (e : Thrown) : option Z :=
  status <$> response e.

(** [!status || status >= 500] *)
Definition unavailable_status (st : option Z) : bool :=
  match st with
  | None => true
  | Some s => (s =? 0)%Z || (500 <=? s)%Z
  end.

(** ** Data model *)

Record User : Type := mkUser {
  sub : JsValue;
  role : JsValue;
  permissions : JsValue;
  accessToken : string
}.

Inductive MatchMode : Type := any | all.

Record AccessContext : Type := mkContext {
  orgId : string;
  workspaceId : option string;
  objectId : option string;
  objectType : option string
}.

Inductive CheckKind : Type := Permissions | Roles.

Inductive Payload : Type :=
| IntrospectBody (token : string)
| CheckBody (kind : CheckKind) (userId : JsValue) (ctx : AccessContext)
    (required : list string) (mode : MatchMode).

Record Request : Type := mkRequest {
  url : string;
  body : Payload;
  authorization : option string
}.

(** How the promise of one [post] settles.  A rejection is an [AxiosError];
    it carries the response when one arrived with a status the client
    rejects (with axios' default [validateStatus], every status outside
    200..299) and none for connection errors and timeouts. *)
Inductive Settled : Type :=
| Resolved (r : AxiosResponse)
| Rejected (msg : string) (r : option AxiosResponse).

(** The injected [HttpService]: for a request issued at a given time, how it
    settles and the time at which it does. *)
Record HttpService : Type := mkHttp {
  post : Request -> Z -> Settled;
  settled_at : Request -> Z -> Z
}.

Record CacheEntry : Type := mkEntry {
  user : User;
  expiresAt : Z
}.

Definition INTROSPECTION_TTL_MS : Z := 30000.

(** The process: [process.env], the clock, the module-level [tokenCache] and
    the outbound requests issued so far (newest first). *)
Record World : Type := mkWorld {
  env : gmap string string;
  clock : Z;
  tokenCache : gmap string CacheEntry;
  sent : list Request
}.

(** ** The [Async] monad *)

Inductive Completion (A : Type) : Type :=
| Return (a : A)
| Throw (e : Thrown).
Arguments Return {A} a.
Arguments Throw {A} e.

Definition Async (A : Type) : Type := World -> Completion A * World.

Definition ret {A} (a : A) : Async A := fun w => (Return a, w).

Definition throw {A} (e : Thrown) : Async A := fun w => (Throw e, w).

Definition bind {A B} (c : Async A) (k : A -> Async B) : Async B :=
  fun w =>
    match c w with
    | (Return a, w') => k a w'
    | (Throw e, w') => (Throw e, w')
    end.

(** [try { c } catch (error) { handler error }] *)
Definition try_catch {A} (c : Async A) (handler : Thrown -> Async A) : Async A :=
  fun w =>
    match c w with
    | (Return a, w') => (Return a, w')
    | (Throw e, w') => handler e w'
    end.

Notation "'let*' x := c 'in' k" := (bind c (fun x => k))
  (at level 10, x name, c at level 100, k at level 200).

Definition Date_now : Async Z := fun w => (Return (clock w), w).

Definition getenv (name : string) : Async (option string) :=
  fun w => (Return (env w !! name), w).

Definition cache_get (token : string) : Async (option CacheEntry) :=
  fun w => (Return (tokenCache w !! token), w).

Definition cache_set (token : string) (e : CacheEntry) : Async unit :=
  fun w =>
    (Return tt,
     {| env := env w; clock := clock w;
        tokenCache := <[token := e]> (tokenCache w); sent := sent w |}).

(** The process once a request issued now has settled: the request is on
    record and the clock reads the time of settlement. *)
Definition issue (http : HttpService) (req : Request) (w : World) : World :=
  {| env := env w; clock := settled_at http req (clock w);
     tokenCache := tokenCache w; sent := req :: sent w |}.

(** [await firstValueFrom(httpService.post(..))] *)
Definition await_post (http : HttpService) (req : Request) : Async AxiosResponse :=
  fun w =>
    match post http req (clock w) with
    | Resolved r => (Return r, issue http req w)
    | Rejected msg r =>
        (Throw {| cls := AxiosError; message := msg; response := r |}, issue http req w)
    end.

(** ** auth-validator.service.ts *)

Definition isDevEnv : Async bool :=
  let* node_env := getenv "NODE_ENV" in
  ret (String.eqb (toLowerCase (or_default node_env "")) "development").

(** [v.k]: reading a property of [undefined] or [null] throws a [TypeError]. *)
Definition member (v : JsValue) (k : string) : Async JsValue :=
  if nullish v
  then throw {| cls := OtherError;
                message := "TypeError: Cannot read properties of undefined";
                response := None |}
  else ret (own_property v k).

Definition TypeError_no_primitive : Thrown :=
  {| cls := OtherError;
     message := "TypeError: Cannot convert object to primitive value";
     response := None |}.

(** A template literal [`.. ${v} ..`] handed to the logger: the text is
    dropped, the conversion of [v] is not. *)
Definition interpolate (v : JsValue) : Async unit :=
  if stringifies v then ret tt else throw TypeError_no_primitive.

(** [process.env[name] || fallback] *)
Definition env_or (name fallback : string) : Async string :=
  let* v := getenv name in
  ret (or_default v fallback).

Section AuthValidatorService.

Variable httpService : HttpService.

(** Lines 33-39: the cache lookup; [Some u] is the early [return cached.user]. *)
Definition cached_user (token : string) : Async (option User) :=
  let* dev := isDevEnv in
  if negb dev then
    let* cached := cache_get token in
    match cached with
    | Some c =>
        let* now := Date_now in
        if (expiresAt c >? now)%Z then ret (Some (user c)) else ret None
    | None => ret None
    end
  else ret None.

(** Lines 42-65: the body of the [try] block. *)
Definition introspect (token : string) : Async User :=
  let* introspectionUrl :=
    env_or "TOKEN_INTROSPECTION_URL" "http://core-service:3000/auth/introspect" in
  let* response :=
    await_post httpService
      {| url := introspectionUrl; body := IntrospectBody token; authorization := None |} in
  if negb (ToBoolean (opt_chain (data response) "active")) then
    throw (new UnauthorizedException "Invalid token")
  else
    let* sub_ := member (data response) "sub" in
    let* role_ := member (data response) "role" in
    let* permissions_ := member (data response) "permissions" in
    let user_ := {| sub := sub_; role := role_; permissions := permissions_;
                    accessToken := token |} in
    let* dev := isDevEnv in
    let* _ :=
      (if negb dev then
         let* now := Date_now in
         cache_set token {| user := user_; expiresAt := now + INTROSPECTION_TTL_MS |}
       else ret tt) in
    ret user_.

(** Lines 66-88: the [catch] block. *)
Definition introspect_failed (error : Thrown) : Async User :=
  if instanceof error UnauthorizedException then throw error
  else
    let status_ := response_status error in
    if unavailable_status status_ then
      throw (new ServiceUnavailableException "Auth service unavailable")
    else
      throw (new UnauthorizedException "Access denied - Token verification failed").

Definition validateToken (token : string) : Async User :=
  let* hit := cached_user token in
  match hit with
  | Some u => ret u
  | None => try_catch (introspect token) introspect_failed
  end.

(** The [catch] block of [checkPermission] and of [checkRole], the same but
    for one word of the logged text: the status is read, the error is logged
    with [user.sub] in the text, and only then is the status tested. *)
Definition check_failed (user_ : User) (error : Thrown) : Async bool :=
  let status_ := response_status error in
  let* _ := interpolate (sub user_) in
  if unavailable_status status_ then
    throw (new ServiceUnavailableException "Authorization service unavailable")
  else ret false.

Definition checkPermission (user_ : User) (permissions_ : list string)
    (match_ : option MatchMode) (context : AccessContext) : Async bool :=
  let match_ := default all match_ in
  try_catch
    (let* permissionCheckUrl :=
       env_or "PERMISSION_CHECK_URL" "http://core-service:3000/auth/check-permission" in
     let permissionCheckData :=
       CheckBody Permissions (sub user_)
         {| orgId := orgId context; workspaceId := workspaceId context;
            objectId := objectId context; objectType := objectType context |}
         permissions_ match_ in
     let* response :=
       await_post httpService
         {| url := permissionCheckUrl; body := permissionCheckData;
            authorization := Some ("Bearer " ++ accessToken user_) |} in
     ret (ToBoolean (opt_chain (data response) "hasPermission")))
    (check_failed user_).

Definition checkRole (user_ : User) (roles_ : list string)
    (match_ : option MatchMode) (context : AccessContext) : Async bool :=
  let match_ := default all match_ in
  try_catch
    (let* roleCheckUrl :=
       env_or "ROLE_CHECK_URL" "http://core-service:3000/auth/check-role" in
     let roleCheckData :=
       CheckBody Roles (sub user_)
         {| orgId := orgId context; workspaceId := workspaceId context;
            objectId := objectId context; objectType := objectType context |}
         roles_ match_ in
     let* response :=
       await_post httpService
         {| url := roleCheckUrl; body := roleCheckData;
            authorization := Some ("Bearer " ++ accessToken user_) |} in
     ret (ToBoolean (opt_chain (data response) "hasRole")))
    (check_failed user_).

End AuthValidatorService.

(** ** The guards *)

(** What the guards are given as [authValidator]: the two operations they
    call.  The tests inject mocks, the application injects
    [AuthValidatorService]. *)
Record AuthValidator : Type := mkValidator {
  validator_checkPermission :
    User -> list string -> option MatchMode -> AccessContext -> Async bool;
  validator_checkRole :
    User -> list string -> option MatchMode -> AccessContext -> Async bool
}.

Definition AuthValidatorService (httpService : HttpService) : AuthValidator :=
  {| validator_checkPermission := checkPermission httpService;
     validator_checkRole := checkRole httpService |}.

(** A header of the incoming request: [string | string[]]. *)
Inductive HeaderValue : Type :=
| HeaderString (s : string)
| HeaderArray (l : list string).

Definition header_truthy (h : option HeaderValue) : bool :=
  match h with
  | None => false
  | Some (HeaderString s) => negb (String.eqb s "")
  | Some (HeaderArray _) => true
  end.

(** [String(h)] *)
Definition header_to_string (h : HeaderValue) : string :=
  match h with
  | HeaderString s => s
  | HeaderArray l => join "," l
  end.

(** [String(h || '').trim()] *)
Definition header_trimmed (h : option HeaderValue) : string :=
  trim (if header_truthy h then from_option header_to_string "" h else "").

(** [h ? String(h).trim() : undefined] *)
Definition header_optional (h : option HeaderValue) : option string :=
  if header_truthy h then Some (trim (from_option header_to_string "" h)) else None.

(** What [reflector.getAllAndOverride<string[] | string>] can return. *)
Inductive Metadata : Type :=
| MetaUndefined
| MetaString (s : string)
| MetaArray (l : list string).

(** [Array.isArray(m) ? m : typeof m === 'string' ? [m] : undefined] *)
Definition required_list (m : Metadata) : option (list string) :=
  match m with
  | MetaArray l => Some l
  | MetaString s => Some [s]
  | MetaUndefined => None
  end.

Record HttpRequest : Type := mkHttpRequest {
  headers : gmap string HeaderValue;
  request_user : option User
}.

(** The execution context together with the metadata the reflector finds
    for its handler and class. *)
Record ExecutionContext : Type := mkExecutionContext {
  meta_permissions : Metadata;
  meta_roles : Metadata;
  meta_match : option MatchMode;
  getRequest : HttpRequest
}.

Module PermissionGuard.

Definition canActivate (authValidator : AuthValidator)
    (context : ExecutionContext) : Async bool :=
  let requiredPermissions := meta_permissions context in
  let matchMode := default all (meta_match context) in
  match required_list requiredPermissions with
  | None | Some [] => ret true
  | Some permissions_ =>
      let request := getRequest context in
      match request_user request with
      | None => throw (new ForbiddenException "Access denied")
      | Some user_ =>
          if negb (ToBoolean (sub user_)) then
            throw (new ForbiddenException "Access denied")
          else
            let orgId_ := header_trimmed (headers request !! "x-org-id") in
            let workspaceId_ := header_optional (headers request !! "x-workspace-id") in
            let objectId_ := header_optional (headers request !! "x-object-id") in
            if String.eqb orgId_ "" then
              throw (new BadRequestException "Missing x-org-id header")
            else
              try_catch
                (let* hasPermission :=
                   validator_checkPermission authValidator user_ permissions_
                     (Some matchMode)
                     {| orgId := orgId_; workspaceId := workspaceId_;
                        objectId := objectId_; objectType := None |} in
                 if negb hasPermission then
                   let* _ := interpolate (sub user_) in
                   throw (new ForbiddenException "Access denied")
                 else ret true)
                (fun error =>
                   if instanceof error ServiceUnavailableException then throw error
                   else
                     let* _ := interpolate (sub user_) in
                     throw (new ForbiddenException "Access denied"))
      end
  end.

End PermissionGuard.

Module RoleGuard.

Definition canActivate (authValidator : AuthValidator)
    (context : ExecutionContext) : Async bool :=
  let requiredRoles := meta_roles context in
  let matchMode := default all (meta_match context) in
  match required_list requiredRoles with
  | None | Some [] => ret true
  | Some roles_ =>
      let request := getRequest context in
      match request_user request with
      | None => throw (new ForbiddenException "Access denied")
      | Some user_ =>
          if negb (ToBoolean (sub user_)) then
            throw (new ForbiddenException "Access denied")
          else
            let orgId_ := header_trimmed (headers request !! "x-org-id") in
            let workspaceId_ := header_optional (headers request !! "x-workspace-id") in
            let objectId_ := header_optional (headers request !! "x-object-id") in
            if String.eqb orgId_ "" then
              throw (new BadRequestException "Missing x-org-id header")
            else
              try_catch
                (let* hasRole :=
                   validator_checkRole authValidator user_ roles_
                     (Some matchMode)
                     {| orgId := orgId_; workspaceId := workspaceId_;
                        objectId := objectId_; objectType := None |} in
                 if negb hasRole then
                   let* _ := interpolate (sub user_) in
                   throw (new ForbiddenException "Access denied")
                 else ret true)
                (fun error =>
                   if instanceof error ServiceUnavailableException then throw error
                   else
                     let* _ := interpolate (sub user_) in
                     throw (new ForbiddenException "Access denied"))
      end
  end.

End RoleGuard.

(** ** token-extractor.service.ts *)

(** The Express request as the extractor and [AuthGuard] see it: what the
    permission and role guards read of it, and [request.cookies]
    ([undefined] unless a cookie parser ran). *)
Record ExpressRequest : Type := mkExpressRequest {
  http_request : HttpRequest;
  cookies : option (gmap string string)
}.

(** [s.startsWith(p)] *)
Fixpoint startsWith (s p : string) {struct p} : bool :=
  match p, s with
  | EmptyString, _ => true
  | String a p', String b s' => if Ascii.eqb a b then startsWith s' p' else false
  | String _ _, EmptyString => false
  end.

(** [s.substring(n)] *)
Fixpoint substring_from (n : nat) (s : string) : string :=
  match n, s with
  | O, _ => s
  | S n', String _ s' => substring_from n' s'
  | S _, EmptyString => EmptyString
  end.

(** [request.cookies && request.cookies['access_token']], when truthy. *)
Definition access_token_cookie (request : ExpressRequest) : option string :=
  match cookies request with
  | Some jar =>
      match jar !! "access_token" with
      | Some v => if String.eqb v "" then None else Some v
      | None => None
      end
  | None => None
  end.

(** [extractToken] is synchronous and touches nothing of the process.  An
    array under [authorization] is truthy and has no [startsWith]: calling it
    throws a [TypeError]. *)
Definition extractToken (request : ExpressRequest) : Completion (option string) :=
  match headers (http_request request) !! "authorization" with
  | Some (HeaderArray _) =>
      Throw {| cls := OtherError;
               message := "TypeError: authHeader.startsWith is not a function";
               response := None |}
  | Some (HeaderString authHeader) =>
      if negb (String.eqb authHeader "") && startsWith authHeader "Bearer "
      then Return (Some (substring_from 7 authHeader))
      else Return (access_token_cookie request)
  | None => Return (access_token_cookie request)
  end.

(** ** auth.guard.ts *)

(** A synchronous call made from an [async] function. *)
Definition call {A} (c : Completion A) : Async A := fun w => (c, w).

(** [!token] for [string | undefined] *)
Definition token_missing (token : option string) : bool :=
  match token with
  | Some t => String.eqb t ""
  | None => true
  end.

(** [request.user = user] *)
Definition set_user (u : User) (request : ExpressRequest) : ExpressRequest :=
  {| http_request :=
       {| headers := headers (http_request request); request_user := Some u |};
     cookies := cookies request |}.

Module AuthGuard.

(** The guard is given its two collaborators; of the execution context it
    reads only [switchToHttp().getRequest()].  It returns [true] and leaves
    the user on the request. *)
Definition canActivate
    (tokenExtractor : ExpressRequest -> Completion (option string))
    (authValidator_validateToken : string -> Async User)
    (request : ExpressRequest) : Async (bool * ExpressRequest) :=
  let* token := call (tokenExtractor request) in
  if token_missing token then
    throw (new UnauthorizedException "Access denied - No authentication token provided")
  else
    try_catch
      (let* user_ := authValidator_validateToken (default "" token) in
       ret (true, set_user user_ request))
      (fun error =>
         if instanceof error ServiceUnavailableException then throw error
         else throw (new UnauthorizedException "Access denied - Token verification failed")).

End AuthGuard.

(** ** decorators.ts *)

Inductive GuardClass : Type := AuthGuardClass | PermissionGuardClass | RoleGuardClass.

(** The metadata of one target (a handler or a controller class) under the
    keys this package uses: ['permissions'], ['roles'], ['match'] and the
    guards registered by [UseGuards]. *)
Record Target : Type := mkTarget {
  md_permissions : Metadata;
  md_roles : Metadata;
  md_match : option MatchMode;
  md_guards : list GuardClass
}.

Definition undecorated : Target :=
  {| md_permissions := MetaUndefined; md_roles := MetaUndefined;
     md_match := None; md_guards := [] |}.

(** [UseGuards(g)] appends to the guards of the target. *)
Definition UseGuards (g : GuardClass) (target : Target) : Target :=
  {| md_permissions := md_permissions target; md_roles := md_roles target;
     md_match := md_match target; md_guards := (md_guards target ++ [g])%list |}.

(** [SetMetadata(key, value)] defines the key on the target, replacing what
    was there. *)
Definition SetMetadata_permissions (l : list string) (target : Target) : Target :=
  {| md_permissions := MetaArray l; md_roles := md_roles target;
     md_match := md_match target; md_guards := md_guards target |}.

Definition SetMetadata_roles (l : list string) (target : Target) : Target :=
  {| md_permissions := md_permissions target; md_roles := MetaArray l;
     md_match := md_match target; md_guards := md_guards target |}.

Definition SetMetadata_match (m : MatchMode) (target : Target) : Target :=
  {| md_permissions := md_permissions target; md_roles := md_roles target;
     md_match := Some m; md_guards := md_guards target |}.

(** The argument [string[] | string] of the two decorators. *)
Inductive StringOrArray : Type :=
| OneString (s : string)
| ManyStrings (l : list string).

(** [Array.isArray(x) ? x : [x]] *)
Definition as_array (x : StringOrArray) : list string :=
  match x with
  | ManyStrings l => l
  | OneString s => [s]
  end.

(** [Auth()]; [applyDecorators] applies its arguments in the order given. *)
Definition Auth (target : Target) : Target := UseGuards AuthGuardClass target.

Definition RequirePermissions (permissions_ : StringOrArray)
    (match_ : option MatchMode) (target : Target) : Target :=
  let match_ := default all match_ in
  let list_ := as_array permissions_ in
  UseGuards PermissionGuardClass
    (SetMetadata_match match_ (SetMetadata_permissions list_ target)).

Definition RequireRoles (roles_ : StringOrArray)
    (match_ : option MatchMode) (target : Target) : Target :=
  let match_ := default all match_ in
  let list_ := as_array roles_ in
  UseGuards RoleGuardClass
    (SetMetadata_match match_ (SetMetadata_roles list_ target)).

(** [reflector.getAllAndOverride(key, [handler, class])]: the first value
    that is not [undefined]. *)
Definition override_metadata (handler class_ : Metadata) : Metadata :=
  match handler with
  | MetaUndefined => class_
  | _ => handler
  end.

(** The execution context of a request routed to [handler] of [class_]. *)
Definition reflected (handler class_ : Target) (request : HttpRequest) : ExecutionContext :=
  {| meta_permissions := override_metadata (md_permissions handler) (md_permissions class_);
     meta_roles := override_metadata (md_roles handler) (md_roles class_);
     meta_match := match md_match handler with
                   | Some m => Some m
                   | None => md_match class_
                   end;
     getRequest := request |}.

(** ** examples/middleware-example.ts *)

(** How a middleware ends: it calls [next()] with the request as it left it,
    or answers with [res.status(code).json({ error })]. *)
Inductive MiddlewareOutcome : Type :=
| Next (request : ExpressRequest)
| Respond (code : Z) (error : string).

Module AuthMiddleware.

(** Everything from the extraction on is inside the [try] block; the
    [catch] answers 401 whatever was thrown.  [next()] hands over to the rest
    of the chain and is taken to return. *)
Definition use
    (authValidator_validateToken : string -> Async User)
    (tokenExtractor : ExpressRequest -> Completion (option string))
    (req : ExpressRequest) : Async MiddlewareOutcome :=
  try_catch
    (let* token := call (tokenExtractor req) in
     if token_missing token then
       ret (Respond 401 "No authentication token provided")
     else
       let* user_ := authValidator_validateToken (default "" token) in
       ret (Next (set_user user_ req)))
    (fun error => ret (Respond 401 "Invalid authentication token")).

End AuthMiddleware.

(** * Verification *)

(** ** Running the service *)

(** The request [validateToken] sends for [token] from the process [w]. *)
Definition introspect_request (w : World) (token : string) : Request :=
  {| url := or_default (env w !! "TOKEN_INTROSPECTION_URL")
              "http://core-service:3000/auth/introspect";
     body := IntrospectBody token;
     authorization := None |}.

(** The requests [checkPermission] and [checkRole] send. *)
Definition check_request (kind : CheckKind) (w : World) (u : User)
    (required : list string) (m : option MatchMode) (c : AccessContext) : Request :=
  {| url := match kind with
            | Permissions =>
                or_default (env w !! "PERMISSION_CHECK_URL")
                  "http://core-service:3000/auth/check-permission"
            | Roles =>
                or_default (env w !! "ROLE_CHECK_URL")
                  "http://core-service:3000/auth/check-role"
            end;
     body := CheckBody kind (sub u)
               {| orgId := orgId c; workspaceId := workspaceId c;
                  objectId := objectId c; objectType := objectType c |}
               required (default all m);
     authorization := Some ("Bearer " ++ accessToken u) |}.

(** The world after [validateToken] stored a fresh result. *)
Definition stored (token : string) (u : User) (w : World) : World :=
  {| env := env w; clock := clock w;
     tokenCache := <[token := {| user := u; expiresAt := clock w + INTROSPECTION_TTL_MS |}]>
                     (tokenCache w);
     sent := sent w |}.

Definition dev_mode (w : World) : bool :=
  String.eqb (toLowerCase (or_default (env w !! "NODE_ENV") "")) "development".

(** Time passes and nothing else happens. *)
Definition at_time (t : Z) (w : World) : World :=
  {| env := env w; clock := t; tokenCache := tokenCache w; sent := sent w |}.

(** Both access checks and both guards have one shape; [CheckKind] selects
    the permission or the role variant. *)
Definition check_of (kind : CheckKind) (http : HttpService) :
    User -> list string -> option MatchMode -> AccessContext -> Async bool :=
  match kind with
  | Permissions => checkPermission http
  | Roles => checkRole http
  end.

Definition decision_field (kind : CheckKind) : string :=
  match kind with
  | Permissions => "hasPermission"
  | Roles => "hasRole"
  end.

Definition validator_check (kind : CheckKind) (v : AuthValidator) :
    User -> list string -> option MatchMode -> AccessContext -> Async bool :=
  match kind with
  | Permissions => validator_checkPermission v
  | Roles => validator_checkRole v
  end.

Definition guard_of (kind : CheckKind) :
    AuthValidator -> ExecutionContext -> Async bool :=
  match kind with
  | Permissions => PermissionGuard.canActivate
  | Roles => RoleGuard.canActivate
  end.

Definition meta_of (kind : CheckKind) (context : ExecutionContext) : Metadata :=
  match kind with
  | Permissions => meta_permissions context
  | Roles => meta_roles context
  end.

(** The access context a guard derives from the request headers. *)
Definition request_context (request : HttpRequest) : AccessContext :=
  {| orgId := header_trimmed (headers request !! "x-org-id");
     workspaceId := header_optional (headers request !! "x-workspace-id");
     objectId := header_optional (headers request !! "x-object-id");
     objectType := None |}.

(** Empty or white space only. *)
Fixpoint blank (s : string) : bool :=
  match s with
  | EmptyString => true
  | String c rest => is_white_space c && blank rest
  end.

(** Every entry of the cache is filed under the token its user carries. *)
Definition cache_wf (cache : gmap string CacheEntry) : Prop :=
  forall k c, cache !! k = Some c -> accessToken (user c) = k.

(** *** Fixtures *)

(** An authority that settles every request the same way after [latency] ms. *)
Definition authority_says (s : Settled) (latency : Z) : HttpService :=
  {| post := fun _ _ => s; settled_at := fun _ t => t + latency |}.

(** A process just started with [NODE_ENV] set, at time [t]. *)
Definition fresh_process (node_env : string) (t : Z) : World :=
  {| env := {[ "NODE_ENV" := node_env ]}; clock := t; tokenCache := ∅; sent := [] |}.

(** The same process with [NODE_ENV] set to [node_env]. *)
Definition with_node_env (node_env : string) (w : World) : World :=
  {| env := <[ "NODE_ENV" := node_env ]> (env w); clock := clock w;
     tokenCache := tokenCache w; sent := sent w |}.

Definition active_body (subject : string) : JsValue :=
  JObj [("active", JBool true); ("sub", JStr subject)].

Definition ok (body_ : JsValue) : Settled :=
  Resolved {| status := 200; data := body_ |}.

Definition failed_with (code : Z) (body_ : JsValue) : Settled :=
  Rejected "Request failed" (Some {| status := code; data := body_ |}).

Definition alice : User :=
  {| sub := JStr "u1"; role := JUndefined; permissions := JUndefined;
     accessToken := "T1" |}.

(** The user [validateToken] returns for the body
    [{"active": true, "sub": {"toString": 1}}]: a truthy subject with no
    conversion to a string. *)
Definition odd_subject : User :=
  {| sub := JObj [("toString", JNum 1)]; role := JUndefined;
     permissions := JUndefined; accessToken := "T1" |}.

(** A request for a handler that requires [required] under both keys. *)
Definition protected (required : list string) (org : option HeaderValue)
    (u : option User) : ExecutionContext :=
  {| meta_permissions := MetaArray required;
     meta_roles := MetaArray required;
     meta_match := None;
     getRequest :=
       {| headers := from_option (fun h => {[ "x-org-id" := h ]}) ∅ org;
          request_user := u |} |}.

(** A validator double, as the guard tests use. *)
Definition mock_validator (c : Async bool) : AuthValidator :=
  {| validator_checkPermission := fun _ _ _ _ => c;
     validator_checkRole := fun _ _ _ _ => c |}.

(** A request with the given [authorization] header and cookie jar. *)
Definition incoming (auth : option HeaderValue) (jar : option (gmap string string)) :
    ExpressRequest :=
  {| http_request :=
       {| headers := from_option (fun h => {[ "authorization" := h ]}) ∅ auth;
          request_user := None |};
     cookies := jar |}.

(** *** The process over time *)

(** A client whose answers do not arrive before the request is issued. *)
Definition causal (http : HttpService) : Prop :=
  forall req t, t <= settled_at http req t.

(** One thing happening to the process: time passes, or one call of the
    service runs to its end. *)
Inductive step : World -> World -> Prop :=
| step_tick w t :
    clock w <= t -> step w (at_time t w)
| step_validateToken http token w :
    causal http -> step w (snd (validateToken http token w))
| step_check kind http u required m c w :
    causal http -> step w (snd (check_of kind http u required m c w)).

(** No entry outlives the TTL counted from now. *)
Definition entries_within_ttl (w : World) : Prop :=
  forall k c, tokenCache w !! k = Some c -> expiresAt c <= clock w + INTROSPECTION_TTL_MS.

Lemma isDevEnv_run w : isDevEnv w = (Return (dev_mode w), w).
Proof. reflexivity. Qed.

Lemma cached_user_cases token w :
  cached_user token w =
    (Return (if dev_mode w then None
             else match tokenCache w !! token with
                  | Some c => if (expiresAt c >? clock w)%Z then Some (user c) else None
                  | None => None
                  end), w).
Proof.
  unfold cached_user, bind. rewrite isDevEnv_run.
  destruct (dev_mode w); simpl; [reflexivity|].
  unfold cache_get. destruct (tokenCache w !! token) as [c|]; [|reflexivity].
  unfold Date_now. destruct (expiresAt c >? clock w)%Z; reflexivity.
Qed.

Lemma validateToken_hit http token w u :
  fst (cached_user token w) = Return (Some u) ->
  validateToken http token w = (Return u, w).
Proof.
  intros H. unfold validateToken, bind.
  rewrite cached_user_cases in *. simpl in H. injection H as ->. reflexivity.
Qed.

Lemma validateToken_miss http token w :
  fst (cached_user token w) = Return None ->
  validateToken http token w = try_catch (introspect http token) introspect_failed w.
Proof.
  intros H. unfold validateToken, bind.
  rewrite cached_user_cases in *. simpl in H. injection H as ->. reflexivity.
Qed.

Lemma introspect_rejected http token w msg r :
  post http (introspect_request w token) (clock w) = Rejected msg r ->
  introspect http token w =
    (Throw {| cls := AxiosError; message := msg; response := r |},
     issue http (introspect_request w token) w).
Proof.
  intros H. cbv [introspect bind env_or getenv ret await_post].
  fold (introspect_request w token). rewrite H. reflexivity.
Qed.

Lemma truthy_not_nullish v k : ToBoolean (opt_chain v k) = true -> nullish v = false.
Proof. unfold opt_chain. destruct (nullish v); [discriminate | reflexivity]. Qed.

Lemma introspect_resolved http token w r :
  post http (introspect_request w token) (clock w) = Resolved r ->
  introspect http token w =
    let w1 := issue http (introspect_request w token) w in
    if ToBoolean (opt_chain (data r) "active") then
      let u := {| sub := own_property (data r) "sub";
                  role := own_property (data r) "role";
                  permissions := own_property (data r) "permissions";
                  accessToken := token |} in
      (Return u, if dev_mode w then w1 else stored token u w1)
    else (Throw (new UnauthorizedException "Invalid token"), w1).
Proof.
  intros H. cbv [introspect bind env_or getenv ret await_post].
  fold (introspect_request w token). rewrite H. cbv zeta.
  destruct (ToBoolean (opt_chain (data r) "active")) eqn:Hact; [|reflexivity].
  apply truthy_not_nullish in Hact. unfold member. rewrite Hact.
  cbv beta iota delta [ret negb]. rewrite isDevEnv_run.
  change (dev_mode (issue http (introspect_request w token) w)) with (dev_mode w).
  destruct (dev_mode w); reflexivity.
Qed.

(** What the [catch] block of [validateToken] does with an [AxiosError]. *)
Lemma introspect_failed_axios msg r w :
  introspect_failed {| cls := AxiosError; message := msg; response := r |} w =
    (Throw (if unavailable_status (status <$> r)
            then new ServiceUnavailableException "Auth service unavailable"
            else new UnauthorizedException "Access denied - Token verification failed"),
     w).
Proof.
  unfold introspect_failed, response_status; simpl.
  destruct (unavailable_status (status <$> r)); reflexivity.
Qed.

(** One equation for every call that reaches the network. *)
Lemma validateToken_miss_run http token w :
  fst (cached_user token w) = Return None ->
  validateToken http token w =
    let req := introspect_request w token in
    let w1 := issue http req w in
    match post http req (clock w) with
    | Resolved r =>
        if ToBoolean (opt_chain (data r) "active") then
          let u := {| sub := own_property (data r) "sub";
                      role := own_property (data r) "role";
                      permissions := own_property (data r) "permissions";
                      accessToken := token |} in
          (Return u, if dev_mode w then w1 else stored token u w1)
        else (Throw (new UnauthorizedException "Invalid token"), w1)
    | Rejected msg r =>
        (Throw (if unavailable_status (status <$> r)
                then new ServiceUnavailableException "Auth service unavailable"
                else new UnauthorizedException "Access denied - Token verification failed"),
         w1)
    end.
Proof.
  intros Hmiss. rewrite (validateToken_miss _ _ _ Hmiss). unfold try_catch. cbv zeta.
  destruct (post http (introspect_request w token) (clock w)) as [r|msg r] eqn:Hpost.
  - rewrite (introspect_resolved _ _ _ _ Hpost). cbv zeta.
    destruct (ToBoolean (opt_chain (data r) "active")); reflexivity.
  - rewrite (introspect_rejected _ _ _ _ _ Hpost). apply introspect_failed_axios.
Qed.

Lemma validateToken_miss_sent http token w :
  fst (cached_user token w) = Return None ->
  sent (snd (validateToken http token w)) = introspect_request w token :: sent w.
Proof.
  intros Hmiss. rewrite (validateToken_miss_run _ _ _ Hmiss). cbv zeta.
  destruct (post http (introspect_request w token) (clock w)) as [r|msg r].
  - destruct (ToBoolean (opt_chain (data r) "active")); [|reflexivity].
    destruct (dev_mode w); reflexivity.
  - reflexivity.
Qed.

Lemma interpolate_run v w :
  interpolate v w = (if stringifies v then Return tt else Throw TypeError_no_primitive, w).
Proof. unfold interpolate. destruct (stringifies v); reflexivity. Qed.

(** One equation for both access checks. *)
Lemma check_run kind http u required m c w :
  check_of kind http u required m c w =
    let req := check_request kind w u required m c in
    match post http req (clock w) with
    | Resolved r =>
        (Return (ToBoolean (opt_chain (data r) (decision_field kind))), issue http req w)
    | Rejected msg r =>
        if stringifies (sub u) then
          if unavailable_status (status <$> r) then
            (Throw (new ServiceUnavailableException "Authorization service unavailable"),
             issue http req w)
          else (Return false, issue http req w)
        else (Throw TypeError_no_primitive, issue http req w)
    end.
Proof.
  destruct kind; cbv [check_of checkPermission checkRole try_catch bind env_or getenv
                      ret await_post decision_field];
    match goal with
    | |- context [post http ?q (clock w)] =>
        change q with (check_request Permissions w u required m c)
        || change q with (check_request Roles w u required m c)
    end;
    match goal with
    | |- context [post http ?q (clock w)] => destruct (post http q (clock w)) as [r|msg r]
    end;
    try reflexivity;
    unfold check_failed, response_status, bind; rewrite interpolate_run;
    destruct (stringifies (sub u)); simpl; try reflexivity;
    destruct (unavailable_status (status <$> r)); reflexivity.
Qed.

Lemma blank_trimStart s : blank s = true -> trimStart s = "".
Proof.
  induction s as [|c s IH]; simpl; [reflexivity|].
  intros [Hc Hs]%andb_true_iff. rewrite Hc. auto.
Qed.

Lemma blank_trim s : blank s = true -> trim s = "".
Proof. intros H. unfold trim. rewrite (blank_trimStart _ H). reflexivity. Qed.

Lemma validator_check_service kind http :
  validator_check kind (AuthValidatorService http) = check_of kind http.
Proof. destruct kind; reflexivity. Qed.

(** ** Running the guards *)

(** Once a guard is past its own checks, its outcome is a function of the
    validator's outcome and of whether the subject can be logged. *)
Lemma guard_run kind v context u required w :
  required_list (meta_of kind context) = Some required ->
  required <> [] ->
  request_user (getRequest context) = Some u ->
  ToBoolean (sub u) = true ->
  orgId (request_context (getRequest context)) <> "" ->
  guard_of kind v context w =
    let denied := if stringifies (sub u)
                  then Throw (new ForbiddenException "Access denied")
                  else Throw TypeError_no_primitive in
    match validator_check kind v u required (Some (default all (meta_match context)))
            (request_context (getRequest context)) w with
    | (Return true, w') => (Return true, w')
    | (Return false, w') => (denied, w')
    | (Throw e, w') =>
        if instanceof e ServiceUnavailableException then (Throw e, w')
        else (denied, w')
    end.
Proof.
  intros Hreq Hne Huser Hsub Horg.
  assert (Hneq : String.eqb (header_trimmed (headers (getRequest context) !! "x-org-id")) ""
                 = false)
    by (apply String.eqb_neq; exact Horg).
  destruct required as [|p ps]; [congruence|].
  destruct kind; simpl in Hreq |- *;
    unfold PermissionGuard.canActivate, RoleGuard.canActivate;
    rewrite Hreq, Huser, Hsub; cbv beta iota delta [negb]; rewrite Hneq;
    unfold try_catch, bind, request_context;
    match goal with
    | |- context [?f v u (p :: ps) ?m ?c w] => destruct (f v u (p :: ps) m c w) as [[[|]|e] w']
    end;
    unfold interpolate; cbv zeta;
    destruct (stringifies (sub u)); try reflexivity;
    destruct (instanceof e ServiceUnavailableException); reflexivity.
Qed.

(** ** The claims *)

(** C1. A [validateToken] call that is not served from the cache fails with
    [ServiceUnavailableException] when the introspection call is rejected
    without a response or with a response of status 500 or more, and with
    [UnauthorizedException] when it is rejected with a response of any other
    status. *)
Theorem validateToken_failure_classification http token w msg :
  fst (cached_user token w) = Return None ->
  (post http (introspect_request w token) (clock w) = Rejected msg None ->
   fst (validateToken http token w) =
     Throw (new ServiceUnavailableException "Auth service unavailable"))
  /\
  (forall r,
     post http (introspect_request w token) (clock w) = Rejected msg (Some r) ->
     500 <= status r ->
     fst (validateToken http token w) =
       Throw (new ServiceUnavailableException "Auth service unavailable"))
  /\
  (forall r,
     post http (introspect_request w token) (clock w) = Rejected msg (Some r) ->
     status r <> 0 -> status r < 500 ->
     fst (validateToken http token w) =
       Throw (new UnauthorizedException "Access denied - Token verification failed")).
Proof.
  intros Hmiss. rewrite (validateToken_miss_run _ _ _ Hmiss). cbv zeta.
  split; [|split].
  - intros ->. reflexivity.
  - intros r -> Hr. simpl.
    rewrite (proj2 (Z.leb_le _ _) Hr), orb_true_r. reflexivity.
  - intros r -> H0 H5. simpl.
    rewrite (proj2 (Z.eqb_neq _ _) H0), (proj2 (Z.leb_gt _ _) H5). reflexivity.
Qed.

Lemma validateToken_failure_classification_witness :
  fst (validateToken (authority_says (Rejected "connect ECONNREFUSED" None) 0) "T1"
         (fresh_process "production" 0)) =
    Throw (new ServiceUnavailableException "Auth service unavailable")
  /\ fst (validateToken (authority_says (failed_with 502 JUndefined) 0) "T1"
            (fresh_process "production" 0)) =
       Throw (new ServiceUnavailableException "Auth service unavailable")
  /\ fst (validateToken (authority_says (failed_with 401 JUndefined) 0) "T1"
            (fresh_process "production" 0)) =
       Throw (new UnauthorizedException "Access denied - Token verification failed").
Proof.
  split; [|split].
  - apply (proj1 (validateToken_failure_classification
                    (authority_says (Rejected "connect ECONNREFUSED" None) 0) "T1"
                    (fresh_process "production" 0) "connect ECONNREFUSED" eq_refl)).
    reflexivity.
  - apply (proj1 (proj2 (validateToken_failure_classification
                    (authority_says (failed_with 502 JUndefined) 0) "T1"
                    (fresh_process "production" 0) "Request failed" eq_refl))
             {| status := 502; data := JUndefined |}).
    + reflexivity.
    + simpl. lia.
  - apply (proj2 (proj2 (validateToken_failure_classification
                    (authority_says (failed_with 401 JUndefined) 0) "T1"
                    (fresh_process "production" 0) "Request failed" eq_refl))
             {| status := 401; data := JUndefined |}).
    + reflexivity.
    + simpl. lia.
    + simpl. lia.
Defined.

(** [odd_subject] is a user the service itself hands out. *)
Lemma odd_subject_is_validated :
  fst (validateToken
         (authority_says
            (ok (JObj [("active", JBool true); ("sub", JObj [("toString", JNum 1)])])) 0)
         "T1" (fresh_process "production" 0)) = Return odd_subject.
Proof. reflexivity. Qed.

(** C2, as amended.  An access check made for a user whose subject converts
    to a string, and whose call is rejected without a response (connection
    error, timeout, no status) or with a response of status 500 or more,
    fails with [ServiceUnavailableException]; and a guard whose validator
    throws a [ServiceUnavailableException] throws that very exception,
    leaving the process as the validator left it. *)
Theorem unavailable_authority_propagates kind :
  (forall http u required m c w msg r,
     stringifies (sub u) = true ->
     post http (check_request kind w u required m c) (clock w) = Rejected msg r ->
     r = None \/ (exists resp, r = Some resp /\ 500 <= status resp) ->
     fst (check_of kind http u required m c w) =
       Throw (new ServiceUnavailableException "Authorization service unavailable"))
  /\
  (forall v context u required w e w',
     required_list (meta_of kind context) = Some required ->
     required <> [] ->
     request_user (getRequest context) = Some u ->
     ToBoolean (sub u) = true ->
     orgId (request_context (getRequest context)) <> "" ->
     validator_check kind v u required (Some (default all (meta_match context)))
       (request_context (getRequest context)) w = (Throw e, w') ->
     cls e = ServiceUnavailableException ->
     guard_of kind v context w = (Throw e, w')).
Proof.
  split.
  - intros http u required m c w msg r Hstr Hpost Hr.
    rewrite check_run. cbv zeta. rewrite Hpost, Hstr.
    destruct Hr as [->|(resp & -> & Hs)]; [reflexivity|]. simpl.
    rewrite (proj2 (Z.leb_le _ _) Hs), orb_true_r. reflexivity.
  - intros v context u required w e w' Hreq Hne Huser Hsub Horg Hcall Hcls.
    rewrite (guard_run kind v context u required w Hreq Hne Huser Hsub Horg), Hcall.
    cbv zeta. unfold instanceof. rewrite bool_decide_eq_true_2 by exact Hcls. reflexivity.
Qed.

Lemma unavailable_authority_propagates_witness :
  fst (check_of Permissions
         (authority_says (Rejected "timeout of 5000ms exceeded" None) 5000)
         alice ["orders.read"] (Some any)
         (request_context
            (getRequest (protected ["orders.read"] (Some (HeaderString "org1")) (Some alice))))
         (fresh_process "production" 0)) =
    Throw (new ServiceUnavailableException "Authorization service unavailable")
  /\ guard_of Roles
       (mock_validator (throw (new ServiceUnavailableException "Service Unavailable")))
       (protected ["admin"] (Some (HeaderString "org1")) (Some odd_subject))
       (fresh_process "production" 0) =
     (Throw (new ServiceUnavailableException "Service Unavailable"),
      fresh_process "production" 0).
Proof.
  split.
  - apply (proj1 (unavailable_authority_propagates Permissions)
             _ _ _ _ _ _ "timeout of 5000ms exceeded" None).
    + reflexivity.
    + reflexivity.
    + left. reflexivity.
  - apply (proj2 (unavailable_authority_propagates Roles) _ _ odd_subject ["admin"]).
    + reflexivity.
    + discriminate.
    + reflexivity.
    + reflexivity.
    + vm_compute. discriminate.
    + reflexivity.
    + reflexivity.
Defined.

(** C2 as stated fails: for the user [odd_subject] the [catch] block of
    [checkPermission] throws a [TypeError] while it builds the text of its
    log line, before it looks at the status, so a connection error does not
    come out as [ServiceUnavailableException]. *)
Lemma odd_subject_masks_unavailability :
  ~ (forall kind http u required m c w msg,
       post http (check_request kind w u required m c) (clock w) = Rejected msg None ->
       exists e, fst (check_of kind http u required m c w) = Throw e
                 /\ cls e = ServiceUnavailableException).
Proof.
  intros claim.
  destruct (claim Permissions (authority_says (Rejected "connect ECONNREFUSED" None) 0)
              odd_subject ["orders.read"] None (mkContext "org1" None None None)
              (fresh_process "production" 0) "connect ECONNREFUSED" eq_refl)
    as (e & Hrun & Hcls).
  vm_compute in Hrun. injection Hrun as <-. discriminate.
Qed.

(** C4, as amended.  An access check made for a user whose subject converts
    to a string, and whose call is rejected with a response of a status other
    than 5xx, returns [false] instead of throwing; an access check whose call
    resolves returns the truth value of the decision field of the body
    ([hasPermission] or [hasRole]): the field itself when it is a boolean,
    [false] when it is absent. *)
Theorem access_check_decision kind http u required m c w :
  (forall msg r,
     stringifies (sub u) = true ->
     post http (check_request kind w u required m c) (clock w) = Rejected msg (Some r) ->
     status r <> 0 -> status r < 500 ->
     fst (check_of kind http u required m c w) = Return false)
  /\
  (forall r,
     post http (check_request kind w u required m c) (clock w) = Resolved r ->
     fst (check_of kind http u required m c w) =
       Return (ToBoolean (opt_chain (data r) (decision_field kind))))
  /\
  (forall r b,
     post http (check_request kind w u required m c) (clock w) = Resolved r ->
     opt_chain (data r) (decision_field kind) = JBool b ->
     fst (check_of kind http u required m c w) = Return b)
  /\
  (forall r,
     post http (check_request kind w u required m c) (clock w) = Resolved r ->
     opt_chain (data r) (decision_field kind) = JUndefined ->
     fst (check_of kind http u required m c w) = Return false).
Proof.
  rewrite check_run. cbv zeta. split; [|split; [|split]].
  - intros msg r Hstr -> H0 H5. rewrite Hstr. simpl.
    rewrite (proj2 (Z.eqb_neq _ _) H0), (proj2 (Z.leb_gt _ _) H5). reflexivity.
  - intros r ->. reflexivity.
  - intros r b -> Hfield. simpl. rewrite Hfield. reflexivity.
  - intros r -> Hfield. simpl. rewrite Hfield. reflexivity.
Qed.

Lemma access_check_decision_witness :
  fst (check_of Permissions (authority_says (failed_with 403 JNull) 0)
         alice ["a"; "b"] (Some all) (mkContext "org1" None None None)
         (fresh_process "production" 0)) = Return false
  /\ fst (check_of Permissions
            (authority_says (ok (JObj [("hasPermission", JBool true)])) 0)
            odd_subject ["a"; "b"] (Some all) (mkContext "org1" None None None)
            (fresh_process "production" 0)) = Return true
  /\ fst (check_of Roles (authority_says (ok (JObj [])) 0)
            alice ["a"; "b"] (Some all) (mkContext "org1" None None None)
            (fresh_process "production" 0)) = Return false.
Proof.
  split; [|split].
  - apply (proj1 (access_check_decision Permissions
                    (authority_says (failed_with 403 JNull) 0) alice ["a"; "b"]
                    (Some all) (mkContext "org1" None None None)
                    (fresh_process "production" 0))
             "Request failed" {| status := 403; data := JNull |}).
    + reflexivity.
    + reflexivity.
    + simpl. lia.
    + simpl. lia.
  - apply (proj1 (proj2 (proj2 (access_check_decision Permissions
                    (authority_says (ok (JObj [("hasPermission", JBool true)])) 0)
                    odd_subject ["a"; "b"] (Some all) (mkContext "org1" None None None)
                    (fresh_process "production" 0))))
             {| status := 200; data := JObj [("hasPermission", JBool true)] |} true).
    + reflexivity.
    + reflexivity.
  - apply (proj2 (proj2 (proj2 (access_check_decision Roles
                    (authority_says (ok (JObj [])) 0)
                    alice ["a"; "b"] (Some all) (mkContext "org1" None None None)
                    (fresh_process "production" 0))))
             {| status := 200; data := JObj [] |}).
    + reflexivity.
    + reflexivity.
Defined.

(** C4 as stated fails: for the user [odd_subject] a call rejected with
    status 403 ends in the [TypeError] of the log line, not in [false]. *)
Lemma odd_subject_masks_denial :
  ~ (forall kind http u required m c w msg r,
       post http (check_request kind w u required m c) (clock w) = Rejected msg (Some r) ->
       status r <> 0 -> status r < 500 ->
       fst (check_of kind http u required m c w) = Return false).
Proof.
  intros claim.
  specialize (claim Permissions (authority_says (failed_with 403 JNull) 0)
                odd_subject ["orders.read"] None (mkContext "org1" None None None)
                (fresh_process "production" 0) "Request failed"
                {| status := 403; data := JNull |} eq_refl).
  simpl in claim. specialize (claim ltac:(lia) ltac:(lia)).
  vm_compute in claim. discriminate.
Qed.

(** C5, as amended.  For a user whose subject converts to a string, a guard
    past its own checks fails closed on errors: whatever the validator throws
    that is not a [ServiceUnavailableException] becomes a
    [ForbiddenException], and so does a [false] answer; the guard lets the
    request through only when the validator answered [true]; and the only
    exception other than [ForbiddenException] that leaves it is a
    [ServiceUnavailableException] thrown by the validator.  With the real
    service a resolved response is judged by the truth value of its decision
    field alone: a missing or falsy field is a [ForbiddenException], any
    truthy value lets the request through. *)
Theorem guard_fails_closed kind v context u required w :
  required_list (meta_of kind context) = Some required ->
  required <> [] ->
  request_user (getRequest context) = Some u ->
  ToBoolean (sub u) = true ->
  stringifies (sub u) = true ->
  orgId (request_context (getRequest context)) <> "" ->
  let call :=
    validator_check kind v u required (Some (default all (meta_match context)))
      (request_context (getRequest context)) w in
  (forall e w',
     call = (Throw e, w') -> cls e <> ServiceUnavailableException ->
     guard_of kind v context w = (Throw (new ForbiddenException "Access denied"), w'))
  /\
  (forall w',
     call = (Return false, w') ->
     guard_of kind v context w = (Throw (new ForbiddenException "Access denied"), w'))
  /\
  (forall b w',
     guard_of kind v context w = (Return b, w') -> b = true /\ call = (Return true, w'))
  /\
  (forall e w',
     guard_of kind v context w = (Throw e, w') -> cls e <> ForbiddenException ->
     cls e = ServiceUnavailableException /\ call = (Throw e, w'))
  /\
  (forall http r,
     v = AuthValidatorService http ->
     post http
       (check_request kind w u required (Some (default all (meta_match context)))
          (request_context (getRequest context))) (clock w) = Resolved r ->
     fst (guard_of kind v context w) =
       if ToBoolean (opt_chain (data r) (decision_field kind)) then Return true
       else Throw (new ForbiddenException "Access denied")).
Proof.
  intros Hreq Hne Huser Hsub Hstr Horg call.
  rewrite (guard_run kind v context u required w Hreq Hne Huser Hsub Horg).
  fold call. rewrite Hstr. cbv zeta. split; [|split; [|split; [|split]]].
  - intros e w' -> Hcls. unfold instanceof.
    rewrite bool_decide_eq_false_2 by exact Hcls. reflexivity.
  - intros w' ->. reflexivity.
  - intros b w' H. destruct call as [[[|]|e] w0].
    + inversion H; subst. auto.
    + discriminate.
    + destruct (instanceof e ServiceUnavailableException); discriminate.
  - intros e w' H Hcls. destruct call as [[[|]|e0] w0].
    + discriminate.
    + inversion H; subst. contradiction Hcls. reflexivity.
    + unfold instanceof in H. case_bool_decide as Hsu.
      * inversion H; subst. auto.
      * inversion H; subst. contradiction Hcls. reflexivity.
  - intros http r -> Hpost. subst call.
    rewrite validator_check_service, check_run. cbv zeta. rewrite Hpost.
    destruct (ToBoolean (opt_chain (data r) (decision_field kind))); reflexivity.
Qed.

Lemma guard_fails_closed_witness :
  guard_of Permissions (mock_validator (throw (new OtherError "boom")))
    (protected ["a"] (Some (HeaderString "org1")) (Some alice))
    (fresh_process "production" 0) =
    (Throw (new ForbiddenException "Access denied"), fresh_process "production" 0)
  /\ fst (guard_of Roles (AuthValidatorService (authority_says (ok (JStr "<html>")) 0))
            (protected ["a"] (Some (HeaderString "org1")) (Some alice))
            (fresh_process "production" 0)) =
       Throw (new ForbiddenException "Access denied").
Proof.
  split.
  - apply (proj1 (guard_fails_closed Permissions
                    (mock_validator (throw (new OtherError "boom")))
                    (protected ["a"] (Some (HeaderString "org1")) (Some alice))
                    alice ["a"] (fresh_process "production" 0)
                    eq_refl ltac:(discriminate) eq_refl eq_refl eq_refl
                    ltac:(vm_compute; discriminate))
             (new OtherError "boom")).
    + reflexivity.
    + discriminate.
  - apply (proj2 (proj2 (proj2 (proj2 (guard_fails_closed Roles
                    (AuthValidatorService (authority_says (ok (JStr "<html>")) 0))
                    (protected ["a"] (Some (HeaderString "org1")) (Some alice))
                    alice ["a"] (fresh_process "production" 0)
                    eq_refl ltac:(discriminate) eq_refl eq_refl eq_refl
                    ltac:(vm_compute; discriminate)))))
             (authority_says (ok (JStr "<html>")) 0)
             {| status := 200; data := JStr "<html>" |}).
    + reflexivity.
    + reflexivity.
Defined.

(** C5 as stated fails twice.  A malformed response can be a silent success:
    the body [{hasPermission: "false"}] carries a string, which is truthy,
    and the guard lets the request through.  And an error other than
    [ServiceUnavailableException] can leave the guard: for the user
    [odd_subject] a [false] answer ends in the [TypeError] of the guard's log
    line. *)
Lemma guard_is_open_to_odd_answers :
  ~ (forall kind http context u required w r,
       required_list (meta_of kind context) = Some required ->
       required <> [] ->
       request_user (getRequest context) = Some u ->
       ToBoolean (sub u) = true ->
       orgId (request_context (getRequest context)) <> "" ->
       post http
         (check_request kind w u required (Some (default all (meta_match context)))
            (request_context (getRequest context))) (clock w) = Resolved r ->
       (forall b, opt_chain (data r) (decision_field kind) <> JBool b) ->
       fst (guard_of kind (AuthValidatorService http) context w) =
         Throw (new ForbiddenException "Access denied"))
  /\
  ~ (forall kind v context u required w e w',
       required_list (meta_of kind context) = Some required ->
       required <> [] ->
       request_user (getRequest context) = Some u ->
       ToBoolean (sub u) = true ->
       orgId (request_context (getRequest context)) <> "" ->
       guard_of kind v context w = (Throw e, w') ->
       cls e = ForbiddenException \/ cls e = ServiceUnavailableException).
Proof.
  split; intros claim.
  - specialize (claim Permissions
                  (authority_says (ok (JObj [("hasPermission", JStr "false")])) 0)
                  (protected ["a"] (Some (HeaderString "org1")) (Some alice))
                  alice ["a"] (fresh_process "production" 0)
                  {| status := 200; data := JObj [("hasPermission", JStr "false")] |}
                  eq_refl ltac:(discriminate) eq_refl eq_refl
                  ltac:(vm_compute; discriminate) eq_refl ltac:(discriminate)).
    vm_compute in claim. discriminate.
  - destruct (claim Permissions (mock_validator (ret false))
                (protected ["a"] (Some (HeaderString "org1")) (Some odd_subject))
                odd_subject ["a"] (fresh_process "production" 0)
                TypeError_no_primitive (fresh_process "production" 0)
                eq_refl ltac:(discriminate) eq_refl eq_refl
                ltac:(vm_compute; discriminate) eq_refl) as [H|H]; discriminate.
Qed.

(** C7. When a guard has a requirement to check for an authenticated user and
    the [x-org-id] header is absent, empty or white space only, it throws
    [BadRequestException] and the process is left untouched: the validator is
    not called and no request goes out. *)
Theorem blank_org_is_missing_context kind v context u required w :
  required_list (meta_of kind context) = Some required ->
  required <> [] ->
  request_user (getRequest context) = Some u ->
  ToBoolean (sub u) = true ->
  headers (getRequest context) !! "x-org-id" = None \/
  (exists s, headers (getRequest context) !! "x-org-id" = Some (HeaderString s) /\
             blank s = true) ->
  guard_of kind v context w =
    (Throw (new BadRequestException "Missing x-org-id header"), w)
  /\ sent (snd (guard_of kind v context w)) = sent w.
Proof.
  intros Hreq Hne Huser Hsub Horg.
  assert (Htrim : header_trimmed (headers (getRequest context) !! "x-org-id") = "").
  { destruct Horg as [->|(s & -> & Hs)]; [reflexivity|].
    unfold header_trimmed. simpl.
    destruct (negb (String.eqb s "")); [apply blank_trim; exact Hs | reflexivity]. }
  assert (Hrun : guard_of kind v context w =
                   (Throw (new BadRequestException "Missing x-org-id header"), w)).
  { destruct required as [|p ps]; [congruence|].
    destruct kind; simpl in Hreq |- *;
      unfold PermissionGuard.canActivate, RoleGuard.canActivate;
      rewrite Hreq, Huser, Hsub, Htrim; reflexivity. }
  rewrite Hrun. split; reflexivity.
Qed.

Lemma blank_org_is_missing_context_witness :
  guard_of Permissions
    (AuthValidatorService (authority_says (ok (JObj [("hasPermission", JBool true)])) 0))
    (protected ["a"] (Some (HeaderString "   ")) (Some alice))
    (fresh_process "production" 0) =
    (Throw (new BadRequestException "Missing x-org-id header"),
     fresh_process "production" 0)
  /\ guard_of Roles
       (AuthValidatorService (authority_says (ok (JObj [("hasRole", JBool true)])) 0))
       (protected ["a"] None (Some alice))
       (fresh_process "production" 0) =
     (Throw (new BadRequestException "Missing x-org-id header"),
      fresh_process "production" 0).
Proof.
  split.
  - apply (proj1 (blank_org_is_missing_context Permissions _
                    (protected ["a"] (Some (HeaderString "   ")) (Some alice))
                    alice ["a"] (fresh_process "production" 0)
                    eq_refl ltac:(discriminate) eq_refl eq_refl
                    (or_intror (ex_intro _ "   " (conj eq_refl eq_refl))))).
  - apply (proj1 (blank_org_is_missing_context Roles _
                    (protected ["a"] None (Some alice))
                    alice ["a"] (fresh_process "production" 0)
                    eq_refl ltac:(discriminate) eq_refl eq_refl
                    (or_introl eq_refl))).
Defined.



(** C8. While [isDevEnv()] holds the cache is bypassed: the lookup finds
    nothing whatever the cache holds, the call goes to the network, and
    nothing is stored. *)
Theorem development_bypasses_cache http token w :
  fst (isDevEnv w) = Return true ->
  cached_user token w = (Return None, w)
  /\ sent (snd (validateToken http token w)) = introspect_request w token :: sent w
  /\ tokenCache (snd (validateToken http token w)) = tokenCache w.
Proof.
  rewrite isDevEnv_run. simpl. intros Hdev. injection Hdev as Hdev.
  assert (Hmiss : cached_user token w = (Return None, w))
    by (rewrite cached_user_cases, Hdev; reflexivity).
  split; [exact Hmiss|].
  assert (Hfst : fst (cached_user token w) = Return None) by (rewrite Hmiss; reflexivity).
  split; [apply validateToken_miss_sent; exact Hfst|].
  rewrite (validateToken_miss_run _ _ _ Hfst). cbv zeta. rewrite Hdev.
  destruct (post http (introspect_request w token) (clock w)) as [r|msg r];
    [destruct (ToBoolean (opt_chain (data r) "active"))|]; reflexivity.
Qed.

Lemma development_bypasses_cache_witness :
  let http := authority_says (ok (active_body "u1")) 3 in
  let w1 := snd (validateToken http "T1" (fresh_process "production" 0)) in
  let w2 := with_node_env "DEVELOPMENT" w1 in
  is_Some (tokenCache w2 !! "T1")
  /\ cached_user "T1" w2 = (Return None, w2)
  /\ sent (snd (validateToken http "T1" w2)) = introspect_request w2 "T1" :: sent w2
  /\ tokenCache (snd (validateToken http "T1" w2)) = tokenCache w2.
Proof.
  intros http w1 w2. split; [eexists; reflexivity|].
  apply (development_bypasses_cache http "T1" w2). reflexivity.
Defined.



(** C3, as amended.  When a [validateToken] call that went to the network
    succeeds with caching enabled, its result is stored at the time [t] the
    response arrived; while that entry stands and caching is enabled, a call
    for the same token at a time before [t + 30000] returns the same user and
    leaves the process untouched (no request), and from [t + 30000] on the
    lookup misses and the call goes to the network. *)
Theorem fresh_validation_is_cached_for_ttl http token w u w1 :
  fst (isDevEnv w) = Return false ->
  fst (cached_user token w) = Return None ->
  validateToken http token w = (Return u, w1) ->
  forall http2 w2,
    tokenCache w2 !! token = tokenCache w1 !! token ->
    fst (isDevEnv w2) = Return false ->
    (clock w2 < clock w1 + INTROSPECTION_TTL_MS ->
     validateToken http2 token w2 = (Return u, w2))
    /\
    (clock w1 + INTROSPECTION_TTL_MS <= clock w2 ->
     cached_user token w2 = (Return None, w2)
     /\ sent (snd (validateToken http2 token w2)) = introspect_request w2 token :: sent w2).
Proof.
  rewrite isDevEnv_run. cbn [fst]. intros [= Hdev] Hmiss Hrun.
  rewrite (validateToken_miss_run _ _ _ Hmiss) in Hrun. cbv zeta in Hrun.
  rewrite Hdev in Hrun.
  destruct (post http (introspect_request w token) (clock w)) as [r|msg r];
    [|discriminate].
  destruct (ToBoolean (opt_chain (data r) "active")); [|discriminate].
  injection Hrun as Hu Hw1. rewrite Hu in Hw1. clear Hu. subst w1.
  intros http2 w2 Hentry. rewrite isDevEnv_run. cbn [fst]. intros [= Hdev2].
  assert (Hlook : cached_user token w2 =
                    (Return (if (clock (issue http (introspect_request w token) w)
                                 + INTROSPECTION_TTL_MS >? clock w2)
                             then Some u else None), w2)).
  { rewrite cached_user_cases, Hdev2, Hentry. simpl.
    rewrite lookup_insert_eq. reflexivity. }
  simpl clock. simpl clock in Hlook. rewrite Z.gtb_ltb in Hlook. split.
  - intros Hbefore. apply validateToken_hit. rewrite Hlook. simpl.
    rewrite (proj2 (Z.ltb_lt _ _) Hbefore). reflexivity.
  - intros Hafter. rewrite (proj2 (Z.ltb_ge _ _) Hafter) in Hlook.
    split; [exact Hlook|]. apply validateToken_miss_sent. rewrite Hlook. reflexivity.
Qed.

Lemma fresh_validation_is_cached_for_ttl_witness :
  let http := authority_says (ok (active_body "u1")) 5 in
  let w := fresh_process "production" 1000 in
  let w1 := snd (validateToken http "T1" w) in
  clock w1 = 1005
  /\ validateToken http "T1" (at_time 31004 w1) =
       (Return (mkUser (JStr "u1") JUndefined JUndefined "T1"), at_time 31004 w1)
  /\ cached_user "T1" (at_time 31005 w1) = (Return None, at_time 31005 w1).
Proof.
  intros http w w1. split; [reflexivity|].
  pose proof (fresh_validation_is_cached_for_ttl http "T1" w
                (mkUser (JStr "u1") JUndefined JUndefined "T1") w1
                eq_refl eq_refl eq_refl) as H.
  split.
  - apply (proj1 (H http (at_time 31004 w1) eq_refl eq_refl)). reflexivity.
  - apply (proj2 (H http (at_time 31005 w1) eq_refl eq_refl)). vm_compute. discriminate.
Defined.

(** C3 as stated fails.  A token is validated over the network at time 0 and
    stored until 30000; the call at 29000 succeeds from the cache; the call at
    31000 comes within 30 seconds of that success and yet goes to the
    network: a success served from the cache does not renew the entry. *)
Lemma cached_validation_does_not_renew :
  ~ (forall http token w u w1,
       fst (isDevEnv w) = Return false ->
       validateToken http token w = (Return u, w1) ->
       forall w2,
         tokenCache w2 !! token = tokenCache w1 !! token ->
         fst (isDevEnv w2) = Return false ->
         clock w2 < clock w1 + INTROSPECTION_TTL_MS ->
         validateToken http token w2 = (Return u, w2)).
Proof.
  intros claim.
  pose (http := authority_says (ok (active_body "u1")) 0).
  pose (w := at_time 29000 (snd (validateToken http "T1" (fresh_process "production" 0)))).
  specialize (claim http "T1" w (mkUser (JStr "u1") JUndefined JUndefined "T1") w
                eq_refl eq_refl (at_time 31000 w) eq_refl eq_refl eq_refl).
  apply (f_equal (fun run => length (sent (snd run)))) in claim.
  vm_compute in claim. discriminate.
Qed.

(** C6, as amended.  On a call that is not served from the cache, a body with
    [active: false] gives [UnauthorizedException] when the response resolves,
    whatever its status, and when it is rejected with a status below 500; a
    response rejected with a status of 500 or more gives
    [ServiceUnavailableException] whatever its body says. *)
Theorem inactive_token_classification http token w :
  fst (cached_user token w) = Return None ->
  (forall r,
     post http (introspect_request w token) (clock w) = Resolved r ->
     opt_chain (data r) "active" = JBool false ->
     fst (validateToken http token w) = Throw (new UnauthorizedException "Invalid token"))
  /\
  (forall msg r,
     post http (introspect_request w token) (clock w) = Rejected msg (Some r) ->
     opt_chain (data r) "active" = JBool false ->
     status r <> 0 -> status r < 500 ->
     fst (validateToken http token w) =
       Throw (new UnauthorizedException "Access denied - Token verification failed"))
  /\
  (forall msg r,
     post http (introspect_request w token) (clock w) = Rejected msg (Some r) ->
     opt_chain (data r) "active" = JBool false ->
     500 <= status r ->
     fst (validateToken http token w) =
       Throw (new ServiceUnavailableException "Auth service unavailable")).
Proof.
  intros Hmiss. rewrite (validateToken_miss_run _ _ _ Hmiss). cbv zeta.
  split; [|split].
  - intros r -> Hactive. rewrite Hactive. reflexivity.
  - intros msg r -> _ H0 H5. simpl.
    rewrite (proj2 (Z.eqb_neq _ _) H0), (proj2 (Z.leb_gt _ _) H5). reflexivity.
  - intros msg r -> _ Hs. simpl.
    rewrite (proj2 (Z.leb_le _ _) Hs), orb_true_r. reflexivity.
Qed.

Lemma inactive_token_classification_witness :
  fst (validateToken (authority_says (ok (JObj [("active", JBool false)])) 0) "T2"
         (fresh_process "production" 0)) =
    Throw (new UnauthorizedException "Invalid token")
  /\ fst (validateToken
            (authority_says (failed_with 401 (JObj [("active", JBool false)])) 0) "T2"
            (fresh_process "production" 0)) =
       Throw (new UnauthorizedException "Access denied - Token verification failed")
  /\ fst (validateToken
            (authority_says (failed_with 503 (JObj [("active", JBool false)])) 0) "T2"
            (fresh_process "production" 0)) =
       Throw (new ServiceUnavailableException "Auth service unavailable").
Proof.
  split; [|split].
  - apply (proj1 (inactive_token_classification
                    (authority_says (ok (JObj [("active", JBool false)])) 0) "T2"
                    (fresh_process "production" 0) eq_refl)
             {| status := 200; data := JObj [("active", JBool false)] |});
      reflexivity.
  - apply (proj1 (proj2 (inactive_token_classification
                    (authority_says (failed_with 401 (JObj [("active", JBool false)])) 0)
                    "T2" (fresh_process "production" 0) eq_refl))
             "Request failed" {| status := 401; data := JObj [("active", JBool false)] |}).
    + reflexivity.
    + reflexivity.
    + simpl. lia.
    + simpl. lia.
  - apply (proj2 (proj2 (inactive_token_classification
                    (authority_says (failed_with 503 (JObj [("active", JBool false)])) 0)
                    "T2" (fresh_process "production" 0) eq_refl))
             "Request failed" {| status := 503; data := JObj [("active", JBool false)] |}).
    + reflexivity.
    + reflexivity.
    + simpl. lia.
Defined.

(** C6 as stated fails: the authority answers 503 with the body
    [{active: false}] and [validateToken] throws
    [ServiceUnavailableException], not [UnauthorizedException]. *)
Lemma inactive_body_on_5xx_is_unavailable :
  ~ (forall http token w msg r,
       fst (cached_user token w) = Return None ->
       post http (introspect_request w token) (clock w) = Rejected msg (Some r) ->
       opt_chain (data r) "active" = JBool false ->
       exists e w',
         validateToken http token w = (Throw e, w') /\ cls e = UnauthorizedException).
Proof.
  intros claim.
  destruct (claim (authority_says (failed_with 503 (JObj [("active", JBool false)])) 0)
              "T2" (fresh_process "production" 0) "Request failed"
              {| status := 503; data := JObj [("active", JBool false)] |}
              eq_refl eq_refl eq_refl) as (e & w' & Hrun & Hcls).
  apply (f_equal fst) in Hrun. vm_compute in Hrun.
  injection Hrun as <-. discriminate.
Qed.

Lemma check_sent kind http u required m c w :
  sent (snd (check_of kind http u required m c w)) =
    check_request kind w u required m c :: sent w.
Proof.
  rewrite check_run. cbv zeta.
  destruct (post http (check_request kind w u required m c) (clock w)) as [r|msg r];
    [reflexivity|].
  destruct (stringifies (sub u)); [|reflexivity].
  destruct (unavailable_status (status <$> r)); reflexivity.
Qed.

Lemma cache_wf_empty : cache_wf ∅.
Proof. intros k c H. rewrite lookup_empty in H. discriminate. Qed.

Lemma cache_wf_insert token u t (cache : gmap string CacheEntry) :
  cache_wf cache -> accessToken u = token ->
  cache_wf (<[token := {| user := u; expiresAt := t |}]> cache).
Proof.
  intros Hwf Hu k c. rewrite lookup_insert. case_decide as Hk.
  - intros [= <-]. subst k. exact Hu.
  - apply Hwf.
Qed.

(** C9, as amended.  In a process whose cache files every entry under the
    token of its user (true of the empty cache and kept by [validateToken]),
    every user returned by [validateToken] carries the token the call was
    given, and every [checkPermission] and [checkRole] call made with that
    user sends one request whose [Authorization] header is [Bearer] followed
    by that token.  The subject is the [sub] field of the introspection body,
    copied as it is. *)
Theorem user_carries_credential http token w u w' :
  cache_wf (tokenCache w) ->
  validateToken http token w = (Return u, w') ->
  accessToken u = token
  /\ cache_wf (tokenCache w')
  /\ (fst (cached_user token w) = Return None ->
      exists r,
        post http (introspect_request w token) (clock w) = Resolved r
        /\ sub u = own_property (data r) "sub")
  /\ (forall kind http2 required m c w2,
        sent (snd (check_of kind http2 u required m c w2)) =
          check_request kind w2 u required m c :: sent w2
        /\ authorization (check_request kind w2 u required m c) =
             Some ("Bearer " ++ token)).
Proof.
  intros Hwf Hrun.
  assert (Hmain : accessToken u = token /\ cache_wf (tokenCache w')
                  /\ (fst (cached_user token w) = Return None ->
                      exists r,
                        post http (introspect_request w token) (clock w) = Resolved r
                        /\ sub u = own_property (data r) "sub")).
  { destruct (fst (cached_user token w)) as [[u0|]|e0] eqn:Hc.
    - rewrite (validateToken_hit _ _ _ _ Hc) in Hrun. injection Hrun as -> <-.
      rewrite cached_user_cases in Hc. simpl in Hc.
      destruct (dev_mode w); [discriminate|].
      destruct (tokenCache w !! token) as [c|] eqn:Hlook; [|discriminate].
      destruct (expiresAt c >? clock w); [|discriminate].
      injection Hc as <-. split; [apply (Hwf _ _ Hlook)|]. split; [exact Hwf|].
      discriminate.
    - rewrite (validateToken_miss_run _ _ _ Hc) in Hrun. cbv zeta in Hrun.
      destruct (post http (introspect_request w token) (clock w)) as [r|msg r];
        [|discriminate].
      destruct (ToBoolean (opt_chain (data r) "active")); [|discriminate].
      injection Hrun as <- <-. split; [reflexivity|]. split.
      + destruct (dev_mode w); [exact Hwf|]. simpl.
        apply cache_wf_insert; [exact Hwf | reflexivity].
      + intros _. exists r. split; reflexivity.
    - rewrite cached_user_cases in Hc. discriminate. }
  destruct Hmain as (Htok & Hwf' & Hsub).
  split; [exact Htok|]. split; [exact Hwf'|]. split; [exact Hsub|].
  intros kind http2 required m c w2. split; [apply check_sent|].
  simpl. rewrite Htok. reflexivity.
Qed.

Lemma user_carries_credential_witness :
  let http := authority_says (ok (active_body "u1")) 5 in
  let w := fresh_process "production" 0 in
  let u := mkUser (JStr "u1") JUndefined JUndefined "T1" in
  accessToken u = "T1"
  /\ cache_wf (tokenCache (snd (validateToken http "T1" w)))
  /\ (fst (cached_user "T1" w) = Return None ->
      exists r,
        post http (introspect_request w "T1") (clock w) = Resolved r
        /\ sub u = own_property (data r) "sub")
  /\ (forall kind http2 required m c w2,
        sent (snd (check_of kind http2 u required m c w2)) =
          check_request kind w2 u required m c :: sent w2
        /\ authorization (check_request kind w2 u required m c) =
             Some ("Bearer " ++ "T1")).
Proof.
  intros http w u.
  apply (user_carries_credential http "T1" w u (snd (validateToken http "T1" w))).
  - apply cache_wf_empty.
  - reflexivity.
Defined.

(** C9 as stated fails: the authority answers [{active: true}] with no
    [sub], and [validateToken] returns a user whose subject is [undefined]. *)
Lemma subject_is_not_checked :
  ~ (forall http token w u w',
       validateToken http token w = (Return u, w') ->
       exists s, sub u = JStr s /\ s <> "").
Proof.
  intros claim.
  destruct (claim (authority_says (ok (JObj [("active", JBool true)])) 0) "T1"
              (fresh_process "production" 0)
              (mkUser JUndefined JUndefined JUndefined "T1") _ eq_refl)
    as (s & Hsub & _).
  discriminate.
Qed.

(** * Further properties *)

(** ** The token extractor *)

Lemma startsWith_split s p :
  startsWith s p = true -> s = p ++ substring_from (String.length p) s.
Proof.
  revert s. induction p as [|a p IH]; intros s H; [reflexivity|].
  destruct s as [|b s]; simpl in *; [discriminate|].
  destruct (Ascii.eqb a b) eqn:Hab; [|discriminate].
  apply Ascii.eqb_eq in Hab. subst b.
  change (String a s = String a (p ++ substring_from (String.length p) s)).
  f_equal. apply IH. exact H.
Qed.

Lemma extractToken_bearer request t :
  headers (http_request request) !! "authorization" = Some (HeaderString ("Bearer " ++ t)) ->
  extractToken request = Return (Some t).
Proof. intros H. unfold extractToken. rewrite H. reflexivity. Qed.

(** X1. The header the access checks send is read back by the extractor: a
    request whose [authorization] header is the [Authorization] value of a
    [checkPermission] or [checkRole] request yields the access token of the
    user the check was made for, whatever the cookies hold. *)
Theorem extractToken_reads_forwarded_credential kind w u required m c request h :
  authorization (check_request kind w u required m c) = Some h ->
  headers (http_request request) !! "authorization" = Some (HeaderString h) ->
  extractToken request = Return (Some (accessToken u)).
Proof.
  simpl. intros [= <-] Hh. apply extractToken_bearer. exact Hh.
Qed.

Lemma extractToken_reads_forwarded_credential_witness :
  extractToken (incoming (Some (HeaderString "Bearer T1"))
                  (Some {[ "access_token" := "cookieTok" ]})) = Return (Some "T1").
Proof.
  apply (extractToken_reads_forwarded_credential Permissions (fresh_process "production" 0)
           alice ["a"] None (mkContext "org1" None None None) _ "Bearer T1");
    reflexivity.
Defined.

(** X2. When the [authorization] header is absent, or is a string that does
    not start with [Bearer ] (capital B, one space), the extractor returns
    the [access_token] cookie when the jar holds a non-empty one, and
    [undefined] otherwise. *)
Theorem extractToken_cookie_fallback request :
  headers (http_request request) !! "authorization" = None \/
  (exists s, headers (http_request request) !! "authorization" = Some (HeaderString s)
             /\ startsWith s "Bearer " = false) ->
  (forall jar v,
     cookies request = Some jar -> jar !! "access_token" = Some v -> v <> "" ->
     extractToken request = Return (Some v))
  /\ (cookies request = None -> extractToken request = Return None)
  /\ (forall jar,
        cookies request = Some jar ->
        jar !! "access_token" = None \/ jar !! "access_token" = Some "" ->
        extractToken request = Return None).
Proof.
  intros Hh.
  assert (Hrun : extractToken request = Return (access_token_cookie request)).
  { unfold extractToken. destruct Hh as [->|(s & -> & Hs)]; [reflexivity|].
    rewrite Hs, andb_false_r. reflexivity. }
  rewrite Hrun. unfold access_token_cookie. split; [|split].
  - intros jar v -> -> Hv. rewrite (proj2 (String.eqb_neq _ _) Hv). reflexivity.
  - intros ->. reflexivity.
  - intros jar -> [->| ->]; reflexivity.
Qed.

Lemma extractToken_cookie_fallback_witness :
  extractToken (incoming (Some (HeaderString "bearer abc"))
                  (Some {[ "access_token" := "cookieTok" ]})) = Return (Some "cookieTok")
  /\ extractToken (incoming None None) = Return None.
Proof.
  split.
  - apply (proj1 (extractToken_cookie_fallback
                    (incoming (Some (HeaderString "bearer abc"))
                       (Some {[ "access_token" := "cookieTok" ]}))
                    (or_intror (ex_intro _ "bearer abc" (conj eq_refl eq_refl))))
             {[ "access_token" := "cookieTok" ]} "cookieTok");
      [reflexivity | reflexivity | discriminate].
  - apply (proj1 (proj2 (extractToken_cookie_fallback (incoming None None)
                           (or_introl eq_refl)))).
    reflexivity.
Defined.

(** X3. The extractor returns the empty string exactly when the
    [authorization] header is the bare prefix [Bearer ]: the cookie is then
    not consulted, and no cookie is ever returned empty. *)
Theorem extractToken_empty_iff_bare_prefix request :
  extractToken request = Return (Some "") <->
  headers (http_request request) !! "authorization" = Some (HeaderString "Bearer ").
Proof.
  split.
  - unfold extractToken.
    assert (Hcookie : Return (access_token_cookie request) <> Return (Some "")).
    { unfold access_token_cookie. destruct (cookies request) as [jar|]; [|discriminate].
      destruct (jar !! "access_token") as [v|]; [|discriminate].
      destruct (String.eqb v "") eqn:Hv; [discriminate|].
      intros [= ->]. discriminate. }
    destruct (headers (http_request request) !! "authorization") as [[s|l]|];
      [|discriminate|contradiction].
    destruct (negb (String.eqb s "") && startsWith s "Bearer ") eqn:Hb; [|contradiction].
    apply andb_true_iff in Hb as [_ Hp]. intros Hrun.
    assert (Hrest : substring_from 7 s = "") by congruence.
    apply startsWith_split in Hp. change (String.length "Bearer ") with 7%nat in Hp.
    rewrite Hrest in Hp. rewrite Hp. reflexivity.
  - intros H. apply (extractToken_bearer request ""). exact H.
Qed.

(** ** The authentication guard *)

(** [AuthGuard] as a function of what its two collaborators do. *)
Lemma authGuard_run extractor validate request w :
  AuthGuard.canActivate extractor validate request w =
    match extractor request with
    | Throw e => (Throw e, w)
    | Return token =>
        if token_missing token then
          (Throw (new UnauthorizedException
                    "Access denied - No authentication token provided"), w)
        else
          match validate (default "" token) w with
          | (Return u, w') => (Return (true, set_user u request), w')
          | (Throw e, w') =>
              if instanceof e ServiceUnavailableException then (Throw e, w')
              else (Throw (new UnauthorizedException
                             "Access denied - Token verification failed"), w')
          end
    end.
Proof.
  unfold AuthGuard.canActivate, bind, call.
  destruct (extractor request) as [token|e]; [|reflexivity].
  destruct (token_missing token); [reflexivity|].
  unfold try_catch, bind, ret.
  destruct (validate (default "" token) w) as [[u|e] w']; [reflexivity|].
  destruct (instanceof e ServiceUnavailableException); reflexivity.
Qed.

(** X4. A request without a usable token is turned away before the validator
    is called: when the header is the bare prefix [Bearer ] (whatever the
    cookies hold), or when there is no [Bearer ] header and no non-empty
    [access_token] cookie, [AuthGuard] throws [UnauthorizedException] and the
    process is untouched. *)
Theorem authGuard_rejects_missing_token validate request w :
  headers (http_request request) !! "authorization" = Some (HeaderString "Bearer ") \/
  ((headers (http_request request) !! "authorization" = None \/
    exists s, headers (http_request request) !! "authorization" = Some (HeaderString s)
              /\ startsWith s "Bearer " = false)
   /\ access_token_cookie request = None) ->
  AuthGuard.canActivate extractToken validate request w =
    (Throw (new UnauthorizedException "Access denied - No authentication token provided"),
     w).
Proof.
  intros H. rewrite authGuard_run.
  assert (Hx : exists token, extractToken request = Return token
                             /\ token_missing token = true).
  { destruct H as [Hbare|[Hh Hc]].
    - exists (Some ""). split; [|reflexivity].
      apply extractToken_empty_iff_bare_prefix. exact Hbare.
    - exists None. split; [|reflexivity]. unfold extractToken.
      destruct Hh as [->|(s & -> & Hs)]; [congruence|].
      rewrite Hs, andb_false_r. congruence. }
  destruct Hx as (token & -> & ->). reflexivity.
Qed.

Lemma authGuard_rejects_missing_token_witness :
  let request := incoming (Some (HeaderString "Bearer "))
                   (Some {[ "access_token" := "cookieTok" ]}) in
  let w := fresh_process "production" 0 in
  AuthGuard.canActivate extractToken
    (validateToken (authority_says (ok (active_body "u1")) 0)) request w =
    (Throw (new UnauthorizedException "Access denied - No authentication token provided"),
     w).
Proof.
  intros request w. apply authGuard_rejects_missing_token. left. reflexivity.
Defined.

(** X5. With a usable token [t], [AuthGuard] follows the validator: a user
    is attached to the request and the guard returns [true]; a
    [ServiceUnavailableException] is rethrown as it is; anything else thrown
    is replaced by a new [UnauthorizedException] with the guard's own
    message. *)
Theorem authGuard_follows_validator extractor validate request w t :
  extractor request = Return (Some t) -> t <> "" ->
  (forall u w',
     validate t w = (Return u, w') ->
     AuthGuard.canActivate extractor validate request w =
       (Return (true, set_user u request), w'))
  /\ (forall e w',
        validate t w = (Throw e, w') -> cls e = ServiceUnavailableException ->
        AuthGuard.canActivate extractor validate request w = (Throw e, w'))
  /\ (forall e w',
        validate t w = (Throw e, w') -> cls e <> ServiceUnavailableException ->
        AuthGuard.canActivate extractor validate request w =
          (Throw (new UnauthorizedException "Access denied - Token verification failed"),
           w')).
Proof.
  intros Hx Ht. rewrite authGuard_run, Hx. simpl.
  rewrite (proj2 (String.eqb_neq _ _) Ht). split; [|split].
  - intros u w' ->. reflexivity.
  - intros e w' -> Hcls. unfold instanceof.
    rewrite bool_decide_eq_true_2 by exact Hcls. reflexivity.
  - intros e w' -> Hcls. unfold instanceof.
    rewrite bool_decide_eq_false_2 by exact Hcls. reflexivity.
Qed.

Lemma authGuard_follows_validator_witness :
  let request := incoming (Some (HeaderString "Bearer T2")) None in
  let w := fresh_process "production" 0 in
  let http := authority_says (ok (JObj [("active", JBool false)])) 0 in
  AuthGuard.canActivate extractToken (validateToken http) request w =
    (Throw (new UnauthorizedException "Access denied - Token verification failed"),
     issue http (introspect_request w "T2") w).
Proof.
  intros request w http.
  apply (proj2 (proj2 (authGuard_follows_validator extractToken (validateToken http)
                         request w "T2" eq_refl ltac:(discriminate)))
           (new UnauthorizedException "Invalid token")).
  - reflexivity.
  - discriminate.
Defined.

(** X6. Whatever the validator does, a request whose [authorization] header
    is not an array leaves [AuthGuard] in one of three ways: [true] with a
    user attached and the rest of the request as it was, an
    [UnauthorizedException], or a [ServiceUnavailableException].  The guard
    never returns [false]. *)
Theorem authGuard_outcomes validate request w res w' :
  (forall l, headers (http_request request) !! "authorization" <> Some (HeaderArray l)) ->
  AuthGuard.canActivate extractToken validate request w = (res, w') ->
  match res with
  | Return (b, request') =>
      b = true
      /\ (exists u, request_user (http_request request') = Some u)
      /\ headers (http_request request') = headers (http_request request)
      /\ cookies request' = cookies request
  | Throw e => cls e = UnauthorizedException \/ cls e = ServiceUnavailableException
  end.
Proof.
  intros Hstr. rewrite authGuard_run.
  assert (Hx : exists token, extractToken request = Return token).
  { unfold extractToken.
    destruct (headers (http_request request) !! "authorization") as [[s|l]|] eqn:Hh.
    - destruct (negb (String.eqb s "") && startsWith s "Bearer "); eauto.
    - exfalso. apply (Hstr l). reflexivity.
    - eauto. }
  destruct Hx as [token ->].
  destruct (token_missing token).
  - intros [= <- _]. left. reflexivity.
  - destruct (validate (default "" token) w) as [[u|e] w0].
    + intros [= <- _]. simpl. eauto.
    + unfold instanceof. case_bool_decide as Hsu; intros [= <- _]; [right; exact Hsu|].
      left. reflexivity.
Qed.

Lemma authGuard_outcomes_witness :
  let request := incoming (Some (HeaderString "Bearer T1")) None in
  let w := fresh_process "production" 0 in
  let http := authority_says (Rejected "connect ECONNREFUSED" None) 0 in
  cls (new ServiceUnavailableException "Auth service unavailable") = UnauthorizedException
  \/ cls (new ServiceUnavailableException "Auth service unavailable")
     = ServiceUnavailableException.
Proof.
  intros request w http.
  apply (authGuard_outcomes (validateToken http) request w
           (Throw (new ServiceUnavailableException "Auth service unavailable"))
           (issue http (introspect_request w "T1") w)).
  - intros l. vm_compute. discriminate.
  - reflexivity.
Defined.

(** ** examples/middleware-example.ts *)

(** X7. [AuthMiddleware] never throws and never answers anything but 401.
    It calls [next()] exactly when the extractor gives a non-empty token and
    the validator returns a user for it, and then the user is attached to the
    request and the process is as the validator left it; in every other case,
    an unavailable authority included, it answers with status 401. *)
Theorem authMiddleware_answers_401 validate extractor req w :
  exists out w',
    AuthMiddleware.use validate extractor req w = (Return out, w')
    /\ ((exists r, out = Next r) <->
        (exists t u w1,
           extractor req = Return (Some t) /\ t <> "" /\ validate t w = (Return u, w1)))
    /\ (forall t u w1,
          extractor req = Return (Some t) -> t <> "" -> validate t w = (Return u, w1) ->
          out = Next (set_user u req) /\ w' = w1)
    /\ (forall code msg, out = Respond code msg -> code = 401).
Proof.
  unfold AuthMiddleware.use, try_catch, bind, call, ret.
  destruct (extractor req) as [[t|]|e] eqn:Hx; simpl.
  - destruct (String.eqb t "") eqn:Ht.
    + apply String.eqb_eq in Ht.
      exists (Respond 401 "No authentication token provided"), w.
      split; [reflexivity|]. split; [|split].
      * split; [intros [r Hr]; discriminate|].
        intros (t' & u & w1 & [= <-] & Hne & _). contradiction.
      * intros t' u w1 [= <-] Hne _. contradiction.
      * intros code msg [= <- _]. reflexivity.
    + apply String.eqb_neq in Ht. destruct (validate t w) as [[u|e] w0] eqn:Hv.
      * exists (Next (set_user u req)), w0.
        split; [reflexivity|]. split; [|split].
        -- split; [intros _; exists t, u, w0; auto | eauto].
        -- intros t' u' w1 [= <-] _ Hv'. rewrite Hv in Hv'.
           injection Hv' as <- <-. auto.
        -- intros code msg Hout. discriminate.
      * exists (Respond 401 "Invalid authentication token"), w0.
        split; [reflexivity|]. split; [|split].
        -- split; [intros [r Hr]; discriminate|].
           intros (t' & u & w1 & [= <-] & _ & Hv'). rewrite Hv in Hv'. discriminate.
        -- intros t' u w1 [= <-] _ Hv'. rewrite Hv in Hv'. discriminate.
        -- intros code msg [= <- _]. reflexivity.
  - exists (Respond 401 "No authentication token provided"), w.
    split; [reflexivity|]. split; [|split].
    + split; [intros [r Hr]; discriminate|]. intros (t & u & w1 & Hx' & _). discriminate.
    + intros t u w1 Hx'. discriminate.
    + intros code msg [= <- _]. reflexivity.
  - exists (Respond 401 "Invalid authentication token"), w.
    split; [reflexivity|]. split; [|split].
    + split; [intros [r Hr]; discriminate|]. intros (t & u & w1 & Hx' & _). discriminate.
    + intros t u w1 Hx'. discriminate.
    + intros code msg [= <- _]. reflexivity.
Qed.

(** ** The permission and role guards *)

(** A guard either answers by itself, leaving the process untouched, or
    reaches the validator. *)
Lemma guard_cases kind v context w :
  guard_of kind v context w = (Return true, w)
  \/ guard_of kind v context w = (Throw (new ForbiddenException "Access denied"), w)
  \/ guard_of kind v context w =
       (Throw (new BadRequestException "Missing x-org-id header"), w)
  \/ exists u required,
       required_list (meta_of kind context) = Some required
       /\ required <> []
       /\ request_user (getRequest context) = Some u
       /\ ToBoolean (sub u) = true
       /\ orgId (request_context (getRequest context)) <> "".
Proof.
  destruct (required_list (meta_of kind context)) as [[|p ps]|] eqn:Hreq;
    [left; destruct kind; simpl in Hreq |- *;
       unfold PermissionGuard.canActivate, RoleGuard.canActivate; rewrite Hreq; reflexivity
    | | left; destruct kind; simpl in Hreq |- *;
       unfold PermissionGuard.canActivate, RoleGuard.canActivate; rewrite Hreq; reflexivity].
  destruct (request_user (getRequest context)) as [u|] eqn:Huser;
    [| right; left; destruct kind; simpl in Hreq |- *;
       unfold PermissionGuard.canActivate, RoleGuard.canActivate;
       rewrite Hreq, Huser; reflexivity].
  destruct (ToBoolean (sub u)) eqn:Hsub;
    [| right; left; destruct kind; simpl in Hreq |- *;
       unfold PermissionGuard.canActivate, RoleGuard.canActivate;
       rewrite Hreq, Huser, Hsub; reflexivity].
  destruct (String.eqb (header_trimmed (headers (getRequest context) !! "x-org-id")) "")
    eqn:Horg.
  - right; right; left. destruct kind; simpl in Hreq |- *;
      unfold PermissionGuard.canActivate, RoleGuard.canActivate;
      rewrite Hreq, Huser, Hsub; cbv beta iota delta [negb]; rewrite Horg; reflexivity.
  - right; right; right. exists u, (p :: ps).
    apply String.eqb_neq in Horg. repeat split; auto.
Qed.

(** X8. A handler with no requirement under the guard's key, or an empty
    one, is open: the guard returns [true] without looking at the user or the
    headers and without calling the validator. *)
Theorem guard_without_requirement_allows kind v context w :
  required_list (meta_of kind context) = None \/
  required_list (meta_of kind context) = Some [] ->
  guard_of kind v context w = (Return true, w).
Proof.
  intros [H|H]; destruct kind; simpl in H |- *;
    unfold PermissionGuard.canActivate, RoleGuard.canActivate; rewrite H; reflexivity.
Qed.

Lemma guard_without_requirement_allows_witness :
  guard_of Roles (mock_validator (throw (new OtherError "not called")))
    (protected [] None None) (fresh_process "production" 0) =
    (Return true, fresh_process "production" 0).
Proof.
  apply guard_without_requirement_allows. right. reflexivity.
Defined.

(** X9. With a requirement to check, a request without a user, or with a
    user whose [sub] is falsy, is refused with [ForbiddenException] before
    the organisation header is looked at and before the validator is
    called. *)
Theorem guard_without_user_forbids kind v context required w :
  required_list (meta_of kind context) = Some required ->
  required <> [] ->
  request_user (getRequest context) = None \/
  (exists u, request_user (getRequest context) = Some u /\ ToBoolean (sub u) = false) ->
  guard_of kind v context w = (Throw (new ForbiddenException "Access denied"), w).
Proof.
  intros Hreq Hne Huser. destruct required as [|p ps]; [congruence|].
  destruct Huser as [Huser|(u & Huser & Hsub)]; destruct kind; simpl in Hreq |- *;
    unfold PermissionGuard.canActivate, RoleGuard.canActivate;
    rewrite Hreq, Huser, ?Hsub; reflexivity.
Qed.

Lemma guard_without_user_forbids_witness :
  guard_of Permissions
    (AuthValidatorService (authority_says (ok (JObj [("hasPermission", JBool true)])) 0))
    (protected ["a"] None (Some (mkUser (JStr "") JUndefined JUndefined "T1")))
    (fresh_process "production" 0) =
    (Throw (new ForbiddenException "Access denied"), fresh_process "production" 0).
Proof.
  apply (guard_without_user_forbids Permissions _ _ ["a"]).
  - reflexivity.
  - discriminate.
  - right. eexists. split; reflexivity.
Defined.

(** X10. Neither guard ever returns [false], whatever validator it is given:
    a request is let through with [true] or stopped by an exception. *)
Theorem guard_never_returns_false kind v context w :
  fst (guard_of kind v context w) <> Return false.
Proof.
  destruct (guard_cases kind v context w)
    as [H|[H|[H|(u & required & Hreq & Hne & Huser & Hsub & Horg)]]];
    try (rewrite H; discriminate).
  rewrite (guard_run kind v context u required w Hreq Hne Huser Hsub Horg). cbv zeta.
  destruct (validator_check kind v u required (Some (default all (meta_match context)))
              (request_context (getRequest context)) w) as [[[|]|e] w0];
    [discriminate | destruct (stringifies (sub u)); discriminate |].
  destruct (instanceof e ServiceUnavailableException), (stringifies (sub u)); discriminate.
Qed.

(** X11. A requirement given as one string is checked as the list holding
    that string. *)
Theorem guard_single_string_requirement kind v context context' s w :
  meta_of kind context = MetaString s ->
  meta_of kind context' = MetaArray [s] ->
  meta_match context' = meta_match context ->
  getRequest context' = getRequest context ->
  guard_of kind v context w = guard_of kind v context' w.
Proof.
  intros Hs Ha Hm Hr. destruct kind; simpl in Hs, Ha |- *;
    unfold PermissionGuard.canActivate, RoleGuard.canActivate;
    rewrite Hs, Ha, Hm, Hr; reflexivity.
Qed.

Lemma guard_single_string_requirement_witness :
  let request := {| headers := {[ "x-org-id" := HeaderString "org1" ]};
                    request_user := Some alice |} in
  let v := AuthValidatorService (authority_says (ok (JObj [("hasRole", JBool true)])) 0) in
  guard_of Roles v (mkExecutionContext MetaUndefined (MetaString "admin") None request)
    (fresh_process "production" 0) =
  guard_of Roles v (mkExecutionContext MetaUndefined (MetaArray ["admin"]) None request)
    (fresh_process "production" 0).
Proof.
  intros request v.
  apply (guard_single_string_requirement Roles v _ _ "admin"); reflexivity.
Defined.

(** What a guard makes the real service send once it is past its own
    checks, and how it ends. *)
Lemma guard_service_run kind http context u required w :
  required_list (meta_of kind context) = Some required ->
  required <> [] ->
  request_user (getRequest context) = Some u ->
  ToBoolean (sub u) = true ->
  orgId (request_context (getRequest context)) <> "" ->
  guard_of kind (AuthValidatorService http) context w =
    let req := check_request kind w u required (Some (default all (meta_match context)))
                 (request_context (getRequest context)) in
    let denied := if stringifies (sub u)
                  then Throw (new ForbiddenException "Access denied")
                  else Throw TypeError_no_primitive in
    (match post http req (clock w) with
     | Resolved r =>
         if ToBoolean (opt_chain (data r) (decision_field kind)) then Return true
         else denied
     | Rejected msg r =>
         if stringifies (sub u) && unavailable_status (status <$> r) then
           Throw (new ServiceUnavailableException "Authorization service unavailable")
         else denied
     end,
     issue http req w).
Proof.
  intros Hreq Hne Huser Hsub Horg.
  rewrite (guard_run kind _ context u required w Hreq Hne Huser Hsub Horg).
  rewrite validator_check_service, check_run. cbv zeta.
  destruct (post http _ (clock w)) as [r|msg r].
  - destruct (ToBoolean (opt_chain (data r) (decision_field kind))); reflexivity.
  - destruct (stringifies (sub u)); [|reflexivity].
    destruct (unavailable_status (status <$> r)); reflexivity.
Qed.

(** X12. With the real service behind it, a guard past its own checks sends
    exactly one request, carrying the user's token as bearer credential, the
    trimmed organisation id and no object type; it lets the request through
    exactly when the call resolves with a truthy decision field, whatever
    the status of that response. *)
Theorem guard_passes_iff_authority_agrees kind http context u required w :
  required_list (meta_of kind context) = Some required ->
  required <> [] ->
  request_user (getRequest context) = Some u ->
  ToBoolean (sub u) = true ->
  orgId (request_context (getRequest context)) <> "" ->
  let req := check_request kind w u required (Some (default all (meta_match context)))
               (request_context (getRequest context)) in
  sent (snd (guard_of kind (AuthValidatorService http) context w)) = req :: sent w
  /\ authorization req = Some ("Bearer " ++ accessToken u)
  /\ body req =
       CheckBody kind (sub u)
         {| orgId := trim (from_option header_to_string ""
                             (headers (getRequest context) !! "x-org-id"));
            workspaceId := header_optional (headers (getRequest context) !! "x-workspace-id");
            objectId := header_optional (headers (getRequest context) !! "x-object-id");
            objectType := None |}
         required (default all (meta_match context))
  /\ (fst (guard_of kind (AuthValidatorService http) context w) = Return true <->
      exists r, post http req (clock w) = Resolved r
                /\ ToBoolean (opt_chain (data r) (decision_field kind)) = true).
Proof.
  intros Hreq Hne Huser Hsub Horg req.
  rewrite (guard_service_run kind http context u required w Hreq Hne Huser Hsub Horg).
  cbv zeta. fold req. split; [reflexivity|]. split; [reflexivity|]. split.
  - unfold req, check_request, request_context, header_trimmed. simpl.
    destruct (header_truthy (headers (getRequest context) !! "x-org-id")) eqn:Ht;
      [reflexivity|].
    exfalso. apply Horg. unfold request_context, header_trimmed. simpl.
    rewrite Ht. reflexivity.
  - simpl fst. destruct (post http req (clock w)) as [r|msg r].
    + destruct (ToBoolean (opt_chain (data r) (decision_field kind))) eqn:Hd.
      * split; [eauto | reflexivity].
      * split; [destruct (stringifies (sub u)); discriminate|].
        intros (r' & [= <-] & Hr'). congruence.
    + split.
      * destruct (stringifies (sub u)), (unavailable_status (status <$> r)); discriminate.
      * intros (r' & Hr' & _). discriminate.
Qed.


Lemma guard_passes_iff_authority_agrees_witness :
  let http := authority_says (ok (JObj [("hasPermission", JNum 1)])) 4 in
  let context := protected ["orders.read"] (Some (HeaderString "  org1 ")) (Some alice) in
  let w := fresh_process "production" 0 in
  sent (snd (guard_of Permissions (AuthValidatorService http) context w)) =
    [ {| url := "http://core-service:3000/auth/check-permission";
         body := CheckBody Permissions (JStr "u1") (mkContext "org1" None None None)
                   ["orders.read"] all;
         authorization := Some "Bearer T1" |} ]
  /\ fst (guard_of Permissions (AuthValidatorService http) context w) = Return true.
Proof.
  intros http context w.
  pose proof (guard_passes_iff_authority_agrees Permissions http context alice
                ["orders.read"] w eq_refl ltac:(discriminate) eq_refl eq_refl
                ltac:(vm_compute; discriminate)) as (Hsent & _ & _ & Hiff).
  split; [exact Hsent|].
  apply Hiff. exists {| status := 200; data := JObj [("hasPermission", JNum 1)] |}.
  split; reflexivity.
Defined.

(** X13. With the real service behind it a guard ends, on every input, with
    [true], [ForbiddenException], [BadRequestException] or the service's
    [ServiceUnavailableException], or, only for a user whose subject has no
    conversion to a string, with the [TypeError] of a log line.  It sends at
    most one request and never touches the introspection cache or the
    environment. *)
Theorem guard_outcomes kind http context w :
  let run := guard_of kind (AuthValidatorService http) context w in
  (fst run = Return true
   \/ fst run = Throw (new ForbiddenException "Access denied")
   \/ fst run = Throw (new BadRequestException "Missing x-org-id header")
   \/ fst run = Throw (new ServiceUnavailableException "Authorization service unavailable")
   \/ (fst run = Throw TypeError_no_primitive
       /\ exists u, request_user (getRequest context) = Some u
                    /\ stringifies (sub u) = false))
  /\ (sent (snd run) = sent w \/ exists req, sent (snd run) = req :: sent w)
  /\ tokenCache (snd run) = tokenCache w
  /\ env (snd run) = env w.
Proof.
  cbv zeta.
  destruct (guard_cases kind (AuthValidatorService http) context w)
    as [H|[H|[H|(u & required & Hreq & Hne & Huser & Hsub & Horg)]]];
    try (rewrite H; simpl; tauto).
  rewrite (guard_service_run kind http context u required w Hreq Hne Huser Hsub Horg).
  cbv zeta. simpl. split; [|split; [right; eauto | split; reflexivity]].
  destruct (stringifies (sub u)) eqn:Hstr.
  - destruct (post http _ (clock w)) as [r|msg r].
    + destruct (ToBoolean (opt_chain (data r) (decision_field kind))); tauto.
    + destruct (unavailable_status (status <$> r)); simpl; tauto.
  - destruct (post http _ (clock w)) as [r|msg r].
    + destruct (ToBoolean (opt_chain (data r) (decision_field kind))); [tauto|].
      do 4 right. eauto.
    + simpl. do 4 right. eauto.
Qed.

(** ** The pipeline *)

(** What [validateToken] returns carries the token it was given, and the
    cache stays filed by token. *)
Lemma validateToken_keeps_cache_wf http token w u w' :
  cache_wf (tokenCache w) ->
  validateToken http token w = (Return u, w') ->
  accessToken u = token /\ cache_wf (tokenCache w').
Proof.
  intros Hwf Hrun. pose proof (cached_user_cases token w) as Hc.
  destruct (fst (cached_user token w)) as [[u0|]|e0] eqn:Hfst.
  - rewrite (validateToken_hit _ _ _ _ Hfst) in Hrun. injection Hrun as -> <-.
    rewrite Hc in Hfst. simpl in Hfst.
    destruct (dev_mode w); [discriminate|].
    destruct (tokenCache w !! token) as [c|] eqn:Hlook; [|discriminate].
    destruct (expiresAt c >? clock w); [|discriminate].
    injection Hfst as <-. split; [apply (Hwf _ _ Hlook) | exact Hwf].
  - rewrite (validateToken_miss_run _ _ _ Hfst) in Hrun. cbv zeta in Hrun.
    destruct (post http (introspect_request w token) (clock w)) as [r|msg r];
      [|discriminate].
    destruct (ToBoolean (opt_chain (data r) "active")); [|discriminate].
    injection Hrun as <- <-. split; [reflexivity|].
    destruct (dev_mode w); [exact Hwf|]. simpl.
    apply cache_wf_insert; [exact Hwf | reflexivity].
  - rewrite Hc in Hfst. discriminate.
Qed.

(** X14. The credential passes through unchanged: when [AuthGuard], with
    the real extractor and service, lets through a request carrying
    [Authorization: Bearer t], the user it attaches holds [t], and every
    access check made for that user sends one request whose [Authorization]
    header is the inbound header value again. *)
Theorem credential_passes_through http request w t request' w' :
  cache_wf (tokenCache w) ->
  headers (http_request request) !! "authorization" = Some (HeaderString ("Bearer " ++ t)) ->
  AuthGuard.canActivate extractToken (validateToken http) request w =
    (Return (true, request'), w') ->
  exists u,
    request_user (http_request request') = Some u
    /\ accessToken u = t
    /\ cache_wf (tokenCache w')
    /\ forall kind http2 required m c w2,
         sent (snd (check_of kind http2 u required m c w2)) =
           check_request kind w2 u required m c :: sent w2
         /\ authorization (check_request kind w2 u required m c) =
              Some ("Bearer " ++ t).
Proof.
  intros Hwf Hh. rewrite authGuard_run, (extractToken_bearer _ _ Hh).
  destruct (token_missing (Some t)) eqn:Hmissing; [discriminate|]. simpl default.
  destruct (validateToken http t w) as [[u|e] w0] eqn:Hv.
  - intros [= <- <-]. exists u.
    destruct (validateToken_keeps_cache_wf _ _ _ _ _ Hwf Hv) as [Htok Hwf'].
    split; [reflexivity|]. split; [exact Htok|]. split; [exact Hwf'|].
    intros kind http2 required m c w2. split; [apply check_sent|].
    simpl. rewrite Htok. reflexivity.
  - destruct (instanceof e ServiceUnavailableException); discriminate.
Qed.

Lemma credential_passes_through_witness :
  let http := authority_says (ok (active_body "u1")) 5 in
  let request := incoming (Some (HeaderString "Bearer T1")) None in
  let w := fresh_process "production" 0 in
  exists u,
    request_user (http_request (set_user alice request)) = Some u
    /\ accessToken u = "T1"
    /\ cache_wf (tokenCache (snd (validateToken http "T1" w)))
    /\ forall kind http2 required m c w2,
         sent (snd (check_of kind http2 u required m c w2)) =
           check_request kind w2 u required m c :: sent w2
         /\ authorization (check_request kind w2 u required m c) =
              Some ("Bearer " ++ "T1").
Proof.
  intros http request w.
  apply (credential_passes_through http request w "T1" (set_user alice request)
           (snd (validateToken http "T1" w))).
  - apply cache_wf_empty.
  - reflexivity.
  - reflexivity.
Defined.

(** ** The service *)

(** Every call of [validateToken] is a hit or reaches the network. *)
Lemma validateToken_cases http token w :
  (exists u, fst (cached_user token w) = Return (Some u)
             /\ validateToken http token w = (Return u, w))
  \/ fst (cached_user token w) = Return None.
Proof.
  pose proof (cached_user_cases token w) as Hc.
  destruct (fst (cached_user token w)) as [[u|]|e] eqn:Hfst.
  - left. exists u. split; [reflexivity|]. apply validateToken_hit. exact Hfst.
  - right. reflexivity.
  - rewrite Hc in Hfst. discriminate.
Qed.

(** X15. A [validateToken] call touches nothing but the entry of its own
    token: the environment and the entries of other tokens are as before, no
    entry disappears, and at most one request, the introspection of that
    token, is added to those sent. *)
Theorem validateToken_frame http token w :
  let w' := snd (validateToken http token w) in
  env w' = env w
  /\ (forall k, k <> token -> tokenCache w' !! k = tokenCache w !! k)
  /\ (forall k, is_Some (tokenCache w !! k) -> is_Some (tokenCache w' !! k))
  /\ (sent w' = sent w \/ sent w' = introspect_request w token :: sent w).
Proof.
  cbv zeta. destruct (validateToken_cases http token w) as [(u & _ & ->)|Hmiss].
  - simpl. auto.
  - rewrite (validateToken_miss_run _ _ _ Hmiss). cbv zeta.
    destruct (post http (introspect_request w token) (clock w)) as [r|msg r];
      [destruct (ToBoolean (opt_chain (data r) "active")); [destruct (dev_mode w)|]|];
      simpl; try (repeat split; auto; fail).
    split; [reflexivity|]. split; [|split; [|right; reflexivity]].
    + intros k Hk. apply lookup_insert_ne. congruence.
    + intros k Hk. rewrite lookup_insert. case_decide; [eauto | exact Hk].
Qed.

(** X16. On a call that reaches the network and resolves, only the truth
    value of [active] decides: when it is truthy the call returns a user made
    of the body's [sub], [role] and [permissions] and of the token, whatever
    the status of the response; with caching enabled that user is filed under
    the token until 30 seconds after the response arrived, replacing what was
    filed there. *)
Theorem validateToken_accepts_truthy_active http token w r :
  fst (cached_user token w) = Return None ->
  post http (introspect_request w token) (clock w) = Resolved r ->
  ToBoolean (opt_chain (data r) "active") = true ->
  let u := {| sub := own_property (data r) "sub";
              role := own_property (data r) "role";
              permissions := own_property (data r) "permissions";
              accessToken := token |} in
  fst (validateToken http token w) = Return u
  /\ (fst (isDevEnv w) = Return false ->
      tokenCache (snd (validateToken http token w)) !! token =
        Some {| user := u;
                expiresAt := settled_at http (introspect_request w token) (clock w)
                             + INTROSPECTION_TTL_MS |}).
Proof.
  intros Hmiss Hpost Hactive u.
  rewrite (validateToken_miss_run _ _ _ Hmiss). cbv zeta. rewrite Hpost, Hactive.
  split; [reflexivity|]. rewrite isDevEnv_run. cbn [fst]. intros [= ->].
  simpl. apply lookup_insert_eq.
Qed.

Lemma validateToken_accepts_truthy_active_witness :
  let http := authority_says
                (Resolved {| status := 299;
                             data := JObj [("active", JStr "yes"); ("sub", JStr "u9")] |}) 7 in
  let w := at_time 50
             (snd (validateToken (authority_says (ok (active_body "u1")) 0) "T1"
                     (at_time (-30000) (fresh_process "production" 0)))) in
  fst (validateToken http "T1" w) =
    Return (mkUser (JStr "u9") JUndefined JUndefined "T1")
  /\ tokenCache (snd (validateToken http "T1" w)) !! "T1" =
       Some {| user := mkUser (JStr "u9") JUndefined JUndefined "T1"; expiresAt := 30057 |}.
Proof.
  intros http w.
  destruct (validateToken_accepts_truthy_active http "T1" w
              {| status := 299; data := JObj [("active", JStr "yes"); ("sub", JStr "u9")] |}
              eq_refl eq_refl eq_refl) as [Hu Hentry].
  split; [exact Hu|]. apply Hentry. reflexivity.
Defined.

(** X17. The access checks keep no decisions: a check leaves the
    introspection cache and the environment as they were, and the same check
    made again goes to the authority again. *)
Theorem check_keeps_no_decision kind http u required m c w :
  let w1 := snd (check_of kind http u required m c w) in
  tokenCache w1 = tokenCache w
  /\ env w1 = env w
  /\ sent (snd (check_of kind http u required m c w1)) =
       check_request kind w1 u required m c :: check_request kind w u required m c
       :: sent w.
Proof.
  cbv zeta. rewrite check_sent, check_sent.
  rewrite check_run. cbv zeta.
  destruct (post http (check_request kind w u required m c) (clock w)) as [r|msg r];
    [|destruct (stringifies (sub u)); [destruct (unavailable_status (status <$> r))|]];
    simpl; auto.
Qed.

(** X18. [checkPermission] and [checkRole] end in a boolean or in their own
    [ServiceUnavailableException]; the one other thing they can throw is the
    [TypeError] of the log line of their [catch] block, and that only for a
    user whose subject has no conversion to a string and a call that was
    rejected. *)
Theorem check_outcomes kind http u required m c w :
  (exists b, fst (check_of kind http u required m c w) = Return b)
  \/ fst (check_of kind http u required m c w) =
       Throw (new ServiceUnavailableException "Authorization service unavailable")
  \/ (fst (check_of kind http u required m c w) = Throw TypeError_no_primitive
      /\ stringifies (sub u) = false
      /\ exists msg r,
           post http (check_request kind w u required m c) (clock w) = Rejected msg r).
Proof.
  rewrite check_run. cbv zeta.
  destruct (post http (check_request kind w u required m c) (clock w)) as [r|msg r];
    [eauto|].
  destruct (stringifies (sub u)); [destruct (unavailable_status (status <$> r))|];
    simpl; eauto 8.
Qed.

(** X19. [validateToken] ends in a user or in one of three exceptions: the
    two [UnauthorizedException]s of the inactive token and of the rejected
    introspection, and the [ServiceUnavailableException]. *)
Theorem validateToken_outcomes http token w :
  (exists u, fst (validateToken http token w) = Return u)
  \/ fst (validateToken http token w) = Throw (new UnauthorizedException "Invalid token")
  \/ fst (validateToken http token w) =
       Throw (new UnauthorizedException "Access denied - Token verification failed")
  \/ fst (validateToken http token w) =
       Throw (new ServiceUnavailableException "Auth service unavailable").
Proof.
  destruct (validateToken_cases http token w) as [(u & _ & ->)|Hmiss]; [eauto|].
  rewrite (validateToken_miss_run _ _ _ Hmiss). cbv zeta.
  destruct (post http (introspect_request w token) (clock w)) as [r|msg r];
    [destruct (ToBoolean (opt_chain (data r) "active"))
    |destruct (unavailable_status (status <$> r))]; simpl; eauto.
Qed.

(** X20. The claims a user carries are not consulted locally: an access
    check depends on the user only through [sub] and [accessToken], so two
    users that agree on these get the same answer and send the same request,
    whatever their [role] and [permissions] say. *)
Theorem check_ignores_local_claims kind http u1 u2 required m c w :
  sub u1 = sub u2 -> accessToken u1 = accessToken u2 ->
  check_of kind http u1 required m c w = check_of kind http u2 required m c w.
Proof.
  intros Hsub Htok. rewrite !check_run. cbv zeta. rewrite <- Hsub.
  replace (check_request kind w u2 required m c)
    with (check_request kind w u1 required m c); [reflexivity|].
  unfold check_request. rewrite Hsub, Htok. reflexivity.
Qed.

Lemma check_ignores_local_claims_witness :
  let http := authority_says (ok (JObj [("hasPermission", JBool false)])) 0 in
  let admin := mkUser (JStr "u1") (JStr "admin") (JArr [JStr "orders.read"]) "T1" in
  check_of Permissions http admin ["orders.read"] None (mkContext "org1" None None None)
    (fresh_process "production" 0) =
  check_of Permissions http alice ["orders.read"] None (mkContext "org1" None None None)
    (fresh_process "production" 0).
Proof.
  intros http admin. apply check_ignores_local_claims; reflexivity.
Defined.

(** ** The process over time *)

Lemma check_world kind http u required m c w :
  snd (check_of kind http u required m c w) =
    issue http (check_request kind w u required m c) w.
Proof.
  rewrite check_run. cbv zeta.
  destruct (post http (check_request kind w u required m c) (clock w)) as [r|msg r];
    [|destruct (stringifies (sub u)); [destruct (unavailable_status (status <$> r))|]];
    reflexivity.
Qed.

Lemma entries_within_ttl_later (w w' : World) :
  tokenCache w' = tokenCache w -> clock w <= clock w' ->
  entries_within_ttl w -> entries_within_ttl w'.
Proof.
  intros Hc Ht H k c Hk. rewrite Hc in Hk. specialize (H k c Hk). lia.
Qed.

(** What one step keeps. *)
Lemma step_keeps w w' :
  step w w' ->
  (cache_wf (tokenCache w) -> cache_wf (tokenCache w'))
  /\ (entries_within_ttl w -> entries_within_ttl w')
  /\ env w' = env w
  /\ clock w <= clock w'
  /\ exists newer, sent w' = (newer ++ sent w)%list.
Proof.
  intros [w1 t Ht | http token w1 Hcausal | kind http u required m c w1 Hcausal].
  - split; [auto|]. split; [apply entries_within_ttl_later; [reflexivity | exact Ht]|].
    split; [reflexivity|]. split; [exact Ht|]. exists []. reflexivity.
  - destruct (validateToken_cases http token w1) as [(u & _ & ->)|Hmiss].
    + simpl. split; [auto|]. split; [auto|]. split; [reflexivity|].
      split; [lia|]. exists []. reflexivity.
    + rewrite (validateToken_miss_run _ _ _ Hmiss). cbv zeta.
      pose proof (Hcausal (introspect_request w1 token) (clock w1)) as Hlater.
      assert (Hissue : entries_within_ttl w1 ->
                       entries_within_ttl (issue http (introspect_request w1 token) w1))
        by (apply entries_within_ttl_later; [reflexivity | exact Hlater]).
      destruct (post http (introspect_request w1 token) (clock w1)) as [r|msg r];
        [destruct (ToBoolean (opt_chain (data r) "active")); [destruct (dev_mode w1)|]|];
        simpl snd;
        try (split; [auto|]; split; [exact Hissue|]; split; [reflexivity|];
             split; [exact Hlater|]; exists [introspect_request w1 token]; reflexivity).
      split; [intros Hwf; simpl; apply cache_wf_insert; [exact Hwf | reflexivity]|].
      split; [|split; [reflexivity|split; [exact Hlater|]];
               exists [introspect_request w1 token]; reflexivity].
      intros Hin k c. simpl. rewrite lookup_insert. case_decide as Hk.
      * intros [= <-]. simpl. lia.
      * intros Hlook. specialize (Hin k c Hlook). lia.
  - rewrite check_world.
    pose proof (Hcausal (check_request kind w1 u required m c) (clock w1)) as Hlater.
    split; [auto|].
    split; [apply entries_within_ttl_later; [reflexivity | exact Hlater]|].
    split; [reflexivity|]. split; [exact Hlater|].
    exists [check_request kind w1 u required m c]. reflexivity.
Qed.

Lemma process_keeps w0 w :
  tokenCache w0 = ∅ -> rtc step w0 w ->
  cache_wf (tokenCache w)
  /\ entries_within_ttl w
  /\ env w = env w0
  /\ clock w0 <= clock w
  /\ exists newer, sent w = (newer ++ sent w0)%list.
Proof.
  intros Hempty Hrun. revert w Hrun. refine (rtc_ind_r _ w0 _ _).
  - split; [rewrite Hempty; apply cache_wf_empty|].
    split; [intros k c; rewrite Hempty, lookup_empty; discriminate|].
    split; [reflexivity|]. split; [lia|]. exists []. reflexivity.
  - intros w1 w2 _ Hstep IH.
    destruct IH as (Hwf & Hin & Henv & Hclock & newer & Hsent).
    destruct (step_keeps _ _ Hstep) as (Kwf & Kin & Kenv & Kclock & newer' & Ksent).
    split; [auto|]. split; [auto|]. split; [congruence|]. split; [lia|].
    exists (newer' ++ newer)%list. rewrite Ksent, Hsent. apply app_assoc.
Qed.

(** X21. From a start with an empty cache, through any sequence of
    [validateToken], [checkPermission] and [checkRole] calls against clients
    whose answers do not come before their requests, and the passing of
    time: every cache entry is filed under the token its user carries and
    expires at most 30 seconds from now, the environment is never written,
    and requests are only ever added to those sent. *)
Theorem process_invariants w0 w :
  tokenCache w0 = ∅ -> rtc step w0 w ->
  (forall k c, tokenCache w !! k = Some c ->
     accessToken (user c) = k /\ expiresAt c <= clock w + INTROSPECTION_TTL_MS)
  /\ env w = env w0
  /\ exists newer, sent w = (newer ++ sent w0)%list.
Proof.
  intros Hempty Hrun.
  destruct (process_keeps w0 w Hempty Hrun) as (Hwf & Hin & Henv & _ & Hsent).
  split; [|split; [exact Henv | exact Hsent]].
  intros k c Hk. split; [apply (Hwf k c Hk) | apply (Hin k c Hk)].
Qed.

Lemma two_step_run :
  let http := authority_says (ok (active_body "u1")) 5 in
  let w0 := fresh_process "production" 0 in
  rtc step w0 (at_time 20000 (snd (validateToken http "T1" w0))).
Proof.
  intros http w0.
  apply (rtc_l step w0 (snd (validateToken http "T1" w0))).
  - apply step_validateToken. intros req t. unfold http. simpl. lia.
  - apply rtc_once. apply step_tick. apply Z.leb_le. reflexivity.
Defined.

Lemma process_invariants_witness :
  let http := authority_says (ok (active_body "u1")) 5 in
  let w0 := fresh_process "production" 0 in
  let w := at_time 20000 (snd (validateToken http "T1" w0)) in
  (forall k c, tokenCache w !! k = Some c ->
     accessToken (user c) = k /\ expiresAt c <= clock w + INTROSPECTION_TTL_MS)
  /\ env w = env w0
  /\ exists newer, sent w = (newer ++ sent w0)%list.
Proof.
  intros http w0 w.
  apply (process_invariants w0 w); [reflexivity | apply two_step_run].
Defined.



Lemma or_default_nonempty a d : d <> "" -> or_default a d <> "".
Proof.
  intros Hd. unfold or_default. destruct a as [s|]; [|exact Hd].
  destruct (String.eqb s "") eqn:Hs; [exact Hd|]. apply String.eqb_neq. exact Hs.
Qed.

(** X23. Every request an access check sends has an endpoint: the URL is
    the environment variable of the call when that is set and not empty, and
    the built-in default otherwise, so it is never the empty string. *)
Theorem requests_have_an_endpoint kind http u required m c w :
  let name := match kind with
              | Permissions => "PERMISSION_CHECK_URL"
              | Roles => "ROLE_CHECK_URL"
              end in
  let fallback := match kind with
                  | Permissions => "http://core-service:3000/auth/check-permission"
                  | Roles => "http://core-service:3000/auth/check-role"
                  end in
  exists req,
    sent (snd (check_of kind http u required m c w)) = req :: sent w
    /\ url req <> ""
    /\ (env w !! name = None \/ env w !! name = Some "" -> url req = fallback)
    /\ (forall s, env w !! name = Some s -> s <> "" -> url req = s).
Proof.
  cbv zeta. exists (check_request kind w u required m c).
  split; [apply check_sent|].
  destruct kind; simpl; (split; [apply or_default_nonempty; discriminate|]); split.
  - intros [-> | ->]; reflexivity.
  - intros s -> Hs. simpl. rewrite (proj2 (String.eqb_neq _ _) Hs). reflexivity.
  - intros [-> | ->]; reflexivity.
  - intros s -> Hs. simpl. rewrite (proj2 (String.eqb_neq _ _) Hs). reflexivity.
Qed.

(** ** The decorators *)

(** X24. What a decorator declares is what the guard checks: on a handler
    decorated with [RequirePermissions] (or [RequireRoles]) the guard of that
    kind is registered and finds the declared names as a list, a single
    string having become a one-element list, and the declared match mode,
    ['all'] when none was given, whatever the controller class declares. *)
Theorem decorator_declares_requirement names mode target class_ request :
  (let handler := RequirePermissions names mode target in
   required_list (meta_of Permissions (reflected handler class_ request))
     = Some (as_array names)
   /\ meta_match (reflected handler class_ request) = Some (default all mode)
   /\ PermissionGuardClass ∈ md_guards handler)
  /\
  (let handler := RequireRoles names mode target in
   required_list (meta_of Roles (reflected handler class_ request))
     = Some (as_array names)
   /\ meta_match (reflected handler class_ request) = Some (default all mode)
   /\ RoleGuardClass ∈ md_guards handler).
Proof.
  split; cbv zeta; (split; [reflexivity|]; split; [reflexivity|]);
    simpl; apply elem_of_app; right; apply list_elem_of_singleton; reflexivity.
Qed.

(** X25. The two decorators write the same ['match'] key: on a handler that
    carries both, each guard checks its own names but both use the match
    mode of the decorator applied last. *)
Theorem stacked_decorators_share_match perms pmode roles_ rmode target class_ request :
  (let handler := RequirePermissions perms pmode (RequireRoles roles_ rmode target) in
   required_list (meta_of Roles (reflected handler class_ request)) = Some (as_array roles_)
   /\ required_list (meta_of Permissions (reflected handler class_ request))
        = Some (as_array perms)
   /\ meta_match (reflected handler class_ request) = Some (default all pmode))
  /\
  (let handler := RequireRoles roles_ rmode (RequirePermissions perms pmode target) in
   required_list (meta_of Roles (reflected handler class_ request)) = Some (as_array roles_)
   /\ required_list (meta_of Permissions (reflected handler class_ request))
        = Some (as_array perms)
   /\ meta_match (reflected handler class_ request) = Some (default all rmode)).
Proof.
  split; cbv zeta; repeat split.
Qed.

(** X26. An empty list opens the handler: decorated with
    [RequirePermissions([])] (or [RequireRoles([])]), a handler lets every
    request through the guard of that kind, also when the controller class
    declares a requirement, since the handler's own value overrides it. *)
Theorem empty_requirement_opens_handler mode target class_ v request w :
  guard_of Permissions v
    (reflected (RequirePermissions (ManyStrings []) mode target) class_ request) w
    = (Return true, w)
  /\ guard_of Roles v
       (reflected (RequireRoles (ManyStrings []) mode target) class_ request) w
     = (Return true, w).
Proof.
  split; reflexivity.
Qed.
